(** * easyhttpserver: configuration validation, startup and shutdown

    A shallow embedding of the Go package [easyhttpserver]: the [Options]
    record with [Verify] and [BaseURL], the [Start] operation that builds a
    [Server] and launches the listener goroutines, [Wait] on the completion
    channel, and the [gracefulShutdown] coordinator behind [Shutdown].

    Conventions.
    - Go's [int] and [time.Duration] are modelled as [Z]; no arithmetic is
      performed on them by the package, so no wrap-around arises.
    - Go strings are byte strings: [string] of the standard library.
    - A Go [error] value is [option err]; [None] is [nil].
    - A method with a pointer receiver that mutates it and returns an error
      ([Verify]) becomes a function returning the final record together with
      the error.
    - A call that can panic returns an [outcome]. *)

From Stdlib Require Import ZArith List String Ascii Bool Lia.
From Stdlib Require Import DecimalString DecimalPos.
Import ListNotations.

Local Open Scope string_scope.
Local Open Scope Z_scope.

(** ** Errors and panics *)

(** The error values the package creates or compares against.  The
    [fmt.Errorf] calls of [Verify] and [Start] each get a constructor that
    carries the formatted arguments. *)
Inductive err : Type :=
| ErrMissingPort                       (* "missing PORT for local development" *)
| ErrLetsEncryptLocalhost              (* "Let's Encrypt is not supported on localhost" *)
| ErrMissingHost                       (* "missing HOST when LETSENCRYPT_ENABLED is true" *)
| ErrMissingEmail                      (* "missing LETSENCRYPT_EMAIL when ..." *)
| ErrMissingCacheDir                   (* "missing LETSENCRYPT_CACHE_DIR when ..." *)
| ErrPortNot80 (port : Z)              (* "Let's Encrypt requires HTTP port to be 80, got port %d instead" *)
| ErrACMEv2Unsupported (url : string)  (* "ACMEv2 is not supported by this Go build ..." *)
| ErrCacheDirAccess (dir : string) (cause : string)
| ErrCacheDirNotDir (dir : string)
| ErrServerClosed                      (* http.ErrServerClosed *)
| DeadlineExceeded                     (* context.DeadlineExceeded *)
| ErrOther (msg : string).             (* any other error of a collaborator *)

(** Go's [error]: [None] is [nil]. *)
Definition error : Type := option err.

(** What a panic carries. *)
Inductive panic_value : Type :=
| PanicString (msg : string)
| PanicError (e : err)
| PanicNilDeref.

(** Result of a call that either returns or panics. *)
Inductive outcome (A : Type) : Type :=
| Returns (a : A)
| Panics (p : panic_value).
Arguments Returns {A} a.
Arguments Panics {A} p.

(** ** Formatting helpers *)

(** [strconv.Itoa] and the [%d] verb. *)
Definition Itoa (n : Z) : string := NilZero.string_of_int (Z.to_int n).

(** [strings.HasPrefix s p]. *)
Definition HasPrefix (s p : string) : bool := String.prefix p s.

(** [err.Error()] for the errors whose text is fixed by [Verify]; the
    errors of [Start] quote their arguments with [%q] and wrap a platform
    error, and the errors of collaborators are theirs: no text is modelled
    for them. *)
Definition Error (e : err) : option string :=
  match e with
  | ErrMissingPort => Some "missing PORT for local development"
  | ErrLetsEncryptLocalhost => Some "Let's Encrypt is not supported on localhost"
  | ErrMissingHost => Some "missing HOST when LETSENCRYPT_ENABLED is true"
  | ErrMissingEmail => Some "missing LETSENCRYPT_EMAIL when LETSENCRYPT_ENABLED is true"
  | ErrMissingCacheDir => Some "missing LETSENCRYPT_CACHE_DIR when LETSENCRYPT_ENABLED is true"
  | ErrPortNot80 p =>
      Some ("Let's Encrypt requires HTTP port to be 80, got port " ++ Itoa p ++ " instead")
  | _ => None
  end.

(** ** Effects: a trace of observable events, and panics

    Calls into collaborators ([http.Server.Shutdown], [http.Server.Close],
    the log function, the context's cancel function) are recorded in order
    in a trace.  A computation takes the trace so far and yields its outcome
    and the extended trace. *)

(** [context.WithTimeout(context.Background(), d)]. *)
Record context : Type := mkContext { ctxTimeout : Z }.

Inductive event : Type :=
| EvLog (format : string)                     (* a call of the log function *)
| EvGraceful (ctx : context)                  (* the graceful callback ran *)
| EvForceful                                  (* the forceful callback ran *)
| EvCancel (ctx : context)                    (* the context's cancel function ran *)
| EvShutdown (addr : string) (ctx : context)  (* http.Server.Shutdown(ctx) *)
| EvClose (addr : string).                    (* http.Server.Close() *)

Definition trace : Type := list event.

Definition M (A : Type) : Type := trace -> outcome A * trace.

Definition ret {A} (a : A) : M A := fun t => (Returns a, t).

Definition bind {A B} (m : M A) (k : A -> M B) : M B :=
  fun t =>
    match m t with
    | (Returns a, t') => k a t'
    | (Panics p, t') => (Panics p, t')
    end.

Definition panic {A} (p : panic_value) : M A := fun t => (Panics p, t).

Definition emit (e : event) : M unit := fun t => (Returns tt, (t ++ [e])%list).

(** [defer d()] followed by [body]: [d] runs when [body] returns and also
    when it panics; a panic of [d] replaces the pending outcome. *)
Definition defer {A} (d : M unit) (body : M A) : M A :=
  fun t =>
    match body t with
    | (r, t') =>
        match d t' with
        | (Returns _, t'') => (r, t'')
        | (Panics p, t'') => (Panics p, t'')
        end
    end.

Notation "x <- m ;; k" := (bind m (fun x => k))
  (at level 61, m at next level, right associativity).

(** ** Options *)

(** [time.Second], in nanoseconds. *)
Definition Second : Z := 1000000000.

Record Options : Type := mkOptions {
  (* App settings *)
  Log : option (string -> M unit);
  DefaultDevPort : Z;
  GracefulShutdownTimeout : Z;
  (* Env settings *)
  Port : Z;
  Host : string;
  LetsEncrypt : bool;
  LetsEncryptCacheDir : string;
  LetsEncryptEmail : string;
  (* Derived settings *)
  IsLocalDevelopmentHost : bool;
  PrimaryScheme : string
}.

Definition set_IsLocalDevelopmentHost (b : bool) (o : Options) : Options :=
  mkOptions (Log o) (DefaultDevPort o) (GracefulShutdownTimeout o) (Port o) (Host o)
            (LetsEncrypt o) (LetsEncryptCacheDir o) (LetsEncryptEmail o)
            b (PrimaryScheme o).

Definition set_Port (p : Z) (o : Options) : Options :=
  mkOptions (Log o) (DefaultDevPort o) (GracefulShutdownTimeout o) p (Host o)
            (LetsEncrypt o) (LetsEncryptCacheDir o) (LetsEncryptEmail o)
            (IsLocalDevelopmentHost o) (PrimaryScheme o).

Definition set_PrimaryScheme (s : string) (o : Options) : Options :=
  mkOptions (Log o) (DefaultDevPort o) (GracefulShutdownTimeout o) (Port o) (Host o)
            (LetsEncrypt o) (LetsEncryptCacheDir o) (LetsEncryptEmail o)
            (IsLocalDevelopmentHost o) s.

Definition set_Host (h : string) (o : Options) : Options :=
  mkOptions (Log o) (DefaultDevPort o) (GracefulShutdownTimeout o) (Port o) h
            (LetsEncrypt o) (LetsEncryptCacheDir o) (LetsEncryptEmail o)
            (IsLocalDevelopmentHost o) (PrimaryScheme o).

Definition set_GracefulShutdownTimeout (d : Z) (o : Options) : Options :=
  mkOptions (Log o) (DefaultDevPort o) d (Port o) (Host o)
            (LetsEncrypt o) (LetsEncryptCacheDir o) (LetsEncryptEmail o)
            (IsLocalDevelopmentHost o) (PrimaryScheme o).

(** The test of the first statement of [Verify]. *)
Definition is_local_host (h : string) : bool :=
  String.eqb h EmptyString || String.eqb h "localhost" || HasPrefix h "localhost:".

(** *** Verify, statement by statement

    Each block of the Go method is a function on the record; a block that
    can return early yields the record as mutated so far and the error. *)

Definition verify_local (o : Options) : Options :=
  if is_local_host (Host o) then set_IsLocalDevelopmentHost true o else o.

Definition verify_port (o : Options) : Options * error :=
  if Port o =? 0 then
    if IsLocalDevelopmentHost o then
      if DefaultDevPort o =? 0 then (o, Some ErrMissingPort)
      else (set_Port (DefaultDevPort o) o, None)
    else (set_Port 80 o, None)
  else (o, None).

Definition verify_letsencrypt (o : Options) : error :=
  if LetsEncrypt o then
    if IsLocalDevelopmentHost o then Some ErrLetsEncryptLocalhost
    else if String.eqb (Host o) EmptyString then Some ErrMissingHost
    else if String.eqb (LetsEncryptEmail o) EmptyString then Some ErrMissingEmail
    else if String.eqb (LetsEncryptCacheDir o) EmptyString then Some ErrMissingCacheDir
    else if negb (Port o =? 80) then Some (ErrPortNot80 (Port o))
    else None
  else None.

Definition verify_scheme (o : Options) : Options :=
  if IsLocalDevelopmentHost o then set_PrimaryScheme "http" o
  else set_PrimaryScheme "https" o.

Definition verify_host (o : Options) : Options :=
  if String.eqb (Host o) EmptyString || String.eqb (Host o) "localhost"
  then set_Host ("localhost:" ++ Itoa (Port o)) o
  else o.

(** [func (sopt *Options) Verify() error]: the record after the call and the
    returned error. *)
Definition Verify (sopt : Options) : Options * error :=
  let o1 := verify_local sopt in
  match verify_port o1 with
  | (o2, Some e) => (o2, Some e)
  | (o2, None) =>
      match verify_letsencrypt o2 with
      | Some e => (o2, Some e)
      | None => (verify_host (verify_scheme o2), None)
      end
  end.

(** [func (sopt Options) BaseURL() string]. *)
Definition BaseURL (sopt : Options) : outcome string :=
  if String.eqb (PrimaryScheme sopt) EmptyString then
    Panics (PanicString "BaseURL before Verify")
  else if String.eqb (Host sopt) EmptyString then
    Panics (PanicString "missing HOST")
  else Returns (PrimaryScheme sopt ++ "://" ++ Host sopt).

(** ** The server handle *)

(** [autocert.Manager] as [Start] fills it in. *)
Record Manager : Type := mkManager {
  mgrCacheDir : string;        (* Cache: autocert.DirCache(dir) *)
  mgrHostWhitelist : string;   (* HostPolicy: autocert.HostWhitelist(host) *)
  mgrEmail : string            (* Email *)
}.

Inductive Handler : Type :=
| CallerHandler (id : nat)               (* the handler passed to Start *)
| ChallengeResponder (mgr : Manager).    (* mgr.HTTPHandler(nil) *)

(** [http.Server] as [Start] fills it in. *)
Record HttpServer : Type := mkHttpServer {
  Addr : string;
  ServerHandler : Handler;
  TLSConfig : option Manager   (* mgr.TLSConfig(), or unset *)
}.

(** A buffered channel of errors: its capacity and the values buffered. *)
Record Chan : Type := mkChan { chanCap : nat; chanBuf : list error }.

(** [make(chan error, n)]. *)
Definition make_chan (n : nat) : Chan := mkChan n [].

(** [c <- v]: [None] when the send would block (buffer full, no receiver). *)
Definition send (c : Chan) (v : error) : option Chan :=
  if (List.length (chanBuf c) <? chanCap c)%nat
  then Some (mkChan (chanCap c) (chanBuf c ++ [v])%list)
  else None.

Record Server : Type := mkServer {
  httpServer : option HttpServer;    (* nil or a server *)
  httpsServer : option HttpServer;
  errc : Chan;                       (* the channel as created *)
  gracefulShutdownTimeout : Z;
  log : option (string -> M unit);
  baseURL : string;
  endpoints : list string
}.

(** The two [go func() { ... }()] statements of [Start]. *)
Inductive goroutine : Type :=
| GoListenAndServeTLS (s : HttpServer)
| GoListenAndServe (s : HttpServer).

(** What a listener goroutine sends on [errc] when its listener returns
    [e]: [http.ErrServerClosed] is turned into [nil]. *)
Definition report (e : error) : error :=
  match e with
  | Some ErrServerClosed => None
  | _ => e
  end.

(** ** Start *)

Inductive stat_result : Type :=
| StatError (cause : string)         (* os.Stat failed *)
| StatInfo (isDir : bool).

(** What [Start] reads from its environment. *)
Record Env : Type := mkEnv {
  acmeLetsEncryptURL : string;          (* acme.LetsEncryptURL *)
  osStat : string -> stat_result        (* os.Stat *)
}.

Definition ACMEv2URL : string := "https://acme-v02.api.letsencrypt.org/directory".

Inductive StartResult : Type :=
| Started (srv : Server) (spawned : list goroutine)   (* return srv, nil *)
| StartFailed (e : err).                              (* return nil, err *)

(** Lines 177-185: validation unless [PrimaryScheme] is set, then the
    default of the graceful shutdown timeout.  [sopt] is passed by value:
    the caller's record is not changed. *)
Definition start_options (sopt : Options) : Options * error :=
  match (if String.eqb (PrimaryScheme sopt) EmptyString then Verify sopt else (sopt, None)) with
  | (o, Some e) => (o, Some e)
  | (o, None) =>
      (if GracefulShutdownTimeout o =? 0
       then set_GracefulShutdownTimeout (10 * Second) o else o, None)
  end.

(** Lines 248-251. *)
Definition start_endpoints (sopt : Options) (base : string) : list string :=
  let eps := ([] ++ [base])%list in
  if negb (IsLocalDevelopmentHost sopt) && negb (Port sopt =? 80)
  then (eps ++ [("127.0.0.1:" ++ Itoa (Port sopt))%string])%list
  else eps.

(** Lines 187-253, on the options left by [start_options]. *)
Definition start_server (env : Env) (handler : Handler) (sopt : Options)
  : outcome StartResult :=
  let errc0 := make_chan 2 in
  match BaseURL sopt with
  | Panics p => Panics p
  | Returns base =>
    let srv := mkServer None None errc0 (GracefulShutdownTimeout sopt) None base [] in
    let httpHandler := handler in
    if negb (String.eqb (acmeLetsEncryptURL env) ACMEv2URL) then
      Returns (StartFailed (ErrACMEv2Unsupported (acmeLetsEncryptURL env)))
    else
      let tls :=
        if LetsEncrypt sopt then
          match osStat env (LetsEncryptCacheDir sopt) with
          | StatError cause =>
              inr (ErrCacheDirAccess (LetsEncryptCacheDir sopt) cause)
          | StatInfo false =>
              inr (ErrCacheDirNotDir (LetsEncryptCacheDir sopt))
          | StatInfo true =>
              let mgr := mkManager (LetsEncryptCacheDir sopt) (Host sopt)
                                   (LetsEncryptEmail sopt) in
              let https := mkHttpServer ":https" handler (Some mgr) in
              inl (Some https, ChallengeResponder mgr, [GoListenAndServeTLS https])
          end
        else inl (None, httpHandler, [])
      in
      match tls with
      | inr e => Returns (StartFailed e)
      | inl (https, httpHandler, spawned) =>
          let http := mkHttpServer (":" ++ Itoa (Port sopt)) httpHandler None in
          let spawned := (spawned ++ [GoListenAndServe http])%list in
          match BaseURL sopt with
          | Panics p => Panics p
          | Returns base' =>
              Returns (Started
                         (mkServer (Some http) https errc0
                                   (GracefulShutdownTimeout sopt) None base
                                   (start_endpoints sopt base'))
                         spawned)
          end
      end
  end.

(** [func Start(handler http.Handler, sopt Options)], returning a server
    pointer and an error. *)
Definition Start (env : Env) (handler : Handler) (sopt : Options)
  : outcome StartResult :=
  match start_options sopt with
  | (_, Some e) => Returns (StartFailed e)
  | (o, None) => start_server env handler o
  end.

(** [func (srv *Server) Endpoints() []string]. *)
Definition Endpoints (srv : Server) : list string := endpoints srv.

(** [func (srv *Server) BaseURL() string]. *)
Definition Server_BaseURL (srv : Server) : string := baseURL srv.

(** [func (srv *Server) Log(format string, args ...interface{})]. *)
Definition Server_Log (srv : Server) (format : string) : M unit :=
  match log srv with
  | Some f => f format
  | None => ret tt
  end.

(** ** Wait *)

(** [e := <-srv.errc] followed by [if err == nil { err = e }], on the
    values that arrive on the channel, in order of arrival; [None] when
    nothing is left to arrive, where the receive blocks for ever. *)
Definition wait_recv (st : error * list error) : option (error * list error) :=
  match snd st with
  | [] => None
  | e :: rest => Some (match fst st with None => e | Some _ => fst st end, rest)
  end.

(** [func (srv *Server) Wait() error]: the returned error and the arrivals
    not consumed, or [None] when a receive blocks for ever. *)
Definition Wait (srv : Server) (arrivals : list error) : option (error * list error) :=
  let st := (None, arrivals) in
  match (match httpServer srv with Some _ => wait_recv st | None => Some st end) with
  | None => None
  | Some st1 =>
      match httpsServer srv with Some _ => wait_recv st1 | None => Some st1 end
  end.

(** ** Shutdown *)

Definition timeout_message : string :=
  "graceful shutdown timed out, will close connections forcibly".

(** [func gracefulShutdown(log, gracePeriod, graceful, forceful)]. *)
Definition gracefulShutdown (log : string -> M unit) (gracePeriod : Z)
    (graceful : context -> M error) (forceful : M unit) : M unit :=
  defer forceful
    (let ctx := mkContext gracePeriod in
     defer (emit (EvCancel ctx))
       (err <- graceful ctx ;;
        match err with
        | Some DeadlineExceeded => log timeout_message
        | Some e => panic (PanicError e)
        | None => ret tt
        end)).

(** The methods of [http.Server] that [Shutdown] calls: each is recorded in
    the trace; what [Shutdown(ctx)] returns is decided by the runtime.  A
    call through a nil pointer panics. *)
Definition http_Shutdown (result : string -> error) (s : option HttpServer)
    (ctx : context) : M error :=
  match s with
  | None => panic PanicNilDeref
  | Some h => _ <- emit (EvShutdown (Addr h) ctx) ;; ret (result (Addr h))
  end.

Definition http_Close (s : option HttpServer) : M unit :=
  match s with
  | None => panic PanicNilDeref
  | Some h => emit (EvClose (Addr h))
  end.

(** [func (srv *Server) Shutdown()]. *)
Definition Shutdown (result : string -> error) (srv : Server) : M unit :=
  gracefulShutdown (Server_Log srv) (gracefulShutdownTimeout srv)
    (fun ctx =>
       err <- http_Shutdown result (httpServer srv) ctx ;;
       match httpsServer srv with
       | Some _ =>
           err2 <- http_Shutdown result (httpsServer srv) ctx ;;
           ret (match err with None => err2 | Some _ => err end)
       | None => ret err
       end)
    (_ <- http_Close (httpServer srv) ;;
     match httpsServer srv with
     | Some _ => http_Close (httpsServer srv)
     | None => ret tt
     end).

(** ** LoadEnv and parseBool *)

Definition set_LetsEncrypt (b : bool) (o : Options) : Options :=
  mkOptions (Log o) (DefaultDevPort o) (GracefulShutdownTimeout o) (Port o) (Host o)
            b (LetsEncryptCacheDir o) (LetsEncryptEmail o)
            (IsLocalDevelopmentHost o) (PrimaryScheme o).

Definition set_LetsEncryptCacheDir (d : string) (o : Options) : Options :=
  mkOptions (Log o) (DefaultDevPort o) (GracefulShutdownTimeout o) (Port o) (Host o)
            (LetsEncrypt o) d (LetsEncryptEmail o)
            (IsLocalDevelopmentHost o) (PrimaryScheme o).

Definition set_LetsEncryptEmail (m : string) (o : Options) : Options :=
  mkOptions (Log o) (DefaultDevPort o) (GracefulShutdownTimeout o) (Port o) (Host o)
            (LetsEncrypt o) (LetsEncryptCacheDir o) m
            (IsLocalDevelopmentHost o) (PrimaryScheme o).

(** The range of Go's [int] on a 64-bit platform, and of [uint64]. *)
Definition min_int : Z := - 2 ^ 63.
Definition max_int : Z := 2 ^ 63 - 1.
Definition max_uint64 : Z := 2 ^ 64 - 1.

(** [strconv.ErrSyntax] and [strconv.ErrRange]. *)
Inductive num_error : Type := ErrSyntax | ErrRange.

(** The value of a byte between '0' (48) and '9' (57) as a decimal digit:
    [c - '0']. *)
Definition digit_value (c : ascii) : option Z :=
  let b := Z.of_nat (nat_of_ascii c) in
  if (48 <=? b) && (b <=? 57) then Some (b - 48) else None.

(** The digit loop of [strconv.ParseUint(s, 10, 64)]: bytes are read from
    the left; a byte that is no digit is a syntax error, and an accumulator
    that leaves the range of [uint64] is a range error, whichever is met
    first.  [n] is the value read so far. *)
Fixpoint parse_uint (s : string) (n : Z) : Z + num_error :=
  match s with
  | EmptyString => inl n
  | String c rest =>
      match digit_value c with
      | None => inr ErrSyntax
      | Some d =>
          if n >=? max_uint64 / 10 + 1 then inr ErrRange
          else if n * 10 + d >? max_uint64 then inr ErrRange
          else parse_uint rest (n * 10 + d)
      end
  end.

(** [strconv.Atoi] for a 64-bit [int]: an optional sign, then at least one
    decimal digit and nothing else; the value has to fit. *)
Definition Atoi (s : string) : Z + num_error :=
  match s with
  | EmptyString => inr ErrSyntax
  | String c rest =>
      let neg := Ascii.eqb c "-" in
      let digits := if Ascii.eqb c "+" || Ascii.eqb c "-" then rest else s in
      match digits with
      | EmptyString => inr ErrSyntax
      | _ =>
          match parse_uint digits 0 with
          | inr e => inr e
          | inl un =>
              if neg then (if un >? 2 ^ 63 then inr ErrRange else inl (- un))
              else (if un >=? 2 ^ 63 then inr ErrRange else inl un)
          end
      end
  end.

(** [strings.ToLower] on the bytes of the string: the letters A-Z are
    mapped to a-z and every other byte is kept.  This is what Go does on a
    string of ASCII bytes.  On other strings Go maps code points; none of
    them is mapped to a letter of the words [parseBool] compares with, so
    the comparisons of [parseBool] come out the same. *)
Definition lower_byte (c : ascii) : ascii :=
  let n := nat_of_ascii c in
  if (65 <=? n)%nat && (n <=? 90)%nat then ascii_of_nat (n + 32) else c.

Fixpoint ToLower (s : string) : string :=
  match s with
  | EmptyString => EmptyString
  | String c rest => String (lower_byte c) (ToLower rest)
  end.

(** [strings.Contains s sub]. *)
Fixpoint Contains (s sub : string) : bool :=
  String.prefix sub s
  || match s with
     | EmptyString => false
     | String _ rest => Contains rest sub
     end.

(** A [case] of a [switch] over strings with several values. *)
Definition one_of (s : string) (values : list string) : bool :=
  existsb (String.eqb s) values.

Definition true_words : list string := ["true"; "t"; "yes"; "y"; "on"; "1"].
Definition false_words : list string := ["false"; "f"; "no"; "n"; "off"; "0"].

(** [func parseBool(s string) (v bool, ok bool)]. *)
Definition parseBool (s : string) : bool * bool :=
  let l := ToLower s in
  if one_of l true_words then (true, true)
  else if one_of l false_words then (false, true)
  else (false, false).

(** The errors [LoadEnv] builds, with the offending value. *)
Inductive load_err : Type :=
| ErrInvalidPort (value : string) (cause : num_error)  (* "invalid value of PORT %q: %w" *)
| ErrInvalidHost (value : string)     (* "invalid value of HOST %q: schema is not allowed" *)
| ErrInvalidEmail (value : string)    (* "invalid value of LETSENCRYPT_EMAIL %q: missing @" *)
| ErrInvalidEnabled (value : string). (* "invalid boolean value of LETSENCRYPT_ENABLED %q" *)

(** The five [if s := os.Getenv(...); s != ""] blocks of [LoadEnv];
    [getenv] is [os.Getenv], which yields the empty string for a variable
    that is not set.  Each block returns the record as it leaves it and the
    error it returns early with. *)
Definition load_port (getenv : string -> string) (o : Options)
  : Options * option load_err :=
  let s := getenv "PORT" in
  if String.eqb s EmptyString then (o, None)
  else match Atoi s with
       | inr e => (o, Some (ErrInvalidPort s e))
       | inl v => (set_Port v o, None)
       end.

Definition host_has_schema (s : string) : bool :=
  Contains s "//" || HasPrefix s "http:" || HasPrefix s "https:".

Definition load_host (getenv : string -> string) (o : Options)
  : Options * option load_err :=
  let s := getenv "HOST" in
  if String.eqb s EmptyString then (o, None)
  else if host_has_schema s then (o, Some (ErrInvalidHost s))
  else (set_Host s o, None).

Definition load_email (getenv : string -> string) (o : Options)
  : Options * option load_err :=
  let s := getenv "LETSENCRYPT_EMAIL" in
  if String.eqb s EmptyString then (o, None)
  else if negb (Contains s "@") then (o, Some (ErrInvalidEmail s))
  else (set_LetsEncryptEmail s o, None).

Definition load_cache_dir (getenv : string -> string) (o : Options) : Options :=
  let s := getenv "LETSENCRYPT_CACHE_DIR" in
  if String.eqb s EmptyString then o else set_LetsEncryptCacheDir s o.

Definition load_enabled (getenv : string -> string) (o : Options)
  : Options * option load_err :=
  let s := getenv "LETSENCRYPT_ENABLED" in
  if String.eqb s EmptyString then (o, None)
  else match parseBool s with
       | (v, true) => (set_LetsEncrypt v o, None)
       | (_, false) => (o, Some (ErrInvalidEnabled s))
       end.

(** [func (sopt *Options) LoadEnv() error]: the record after the call and
    the returned error. *)
Definition LoadEnv (getenv : string -> string) (sopt : Options)
  : Options * option load_err :=
  match load_port getenv sopt with
  | (o, Some e) => (o, Some e)
  | (o1, None) =>
      match load_host getenv o1 with
      | (o, Some e) => (o, Some e)
      | (o2, None) =>
          match load_email getenv o2 with
          | (o, Some e) => (o, Some e)
          | (o3, None) => load_enabled getenv (load_cache_dir getenv o3)
          end
      end
  end.

(** An environment given as a list of bindings; the first binding of a
    name counts. *)
Fixpoint getenv_of (bindings : list (string * string)) (name : string) : string :=
  match bindings with
  | [] => EmptyString
  | (k, v) :: rest => if String.eqb k name then v else getenv_of rest name
  end.

(** ** Definitions used to state the properties *)

(** The plain listener [Start] creates for the options [o]. *)
Definition plain_listener (handler : Handler) (o : Options) : HttpServer :=
  mkHttpServer (":" ++ Itoa (Port o))
    (if LetsEncrypt o
     then ChallengeResponder
            (mkManager (LetsEncryptCacheDir o) (Host o) (LetsEncryptEmail o))
     else handler)
    None.

(** The TLS listener [Start] creates for the options [o]. *)
Definition tls_listener (handler : Handler) (o : Options) : HttpServer :=
  mkHttpServer ":https" handler
    (Some (mkManager (LetsEncryptCacheDir o) (Host o) (LetsEncryptEmail o))).

(** The sends of the goroutines, one after the other, with no receiver. *)
Fixpoint send_all (c : Chan) (vs : list error) : option Chan :=
  match vs with
  | [] => Some c
  | v :: rest =>
      match send c v with
      | Some c' => send_all c' rest
      | None => None
      end
  end.

(** The first error that is not [nil], or [nil]. *)
Fixpoint first_non_nil (es : list error) : error :=
  match es with
  | [] => None
  | Some e :: _ => Some e
  | None :: rest => first_non_nil rest
  end.

(** The number of receives of [Wait]: one per listener the handle holds. *)
Definition listener_count (srv : Server) : nat :=
  (match httpServer srv with Some _ => 1 | None => 0 end
   + match httpsServer srv with Some _ => 1 | None => 0 end)%nat.

(** Callbacks that only record that they ran; the graceful one returns, or
    panics with, what it is told to. *)
Definition probe_log (format : string) : M unit := emit (EvLog format).

Definition probe_graceful (r : outcome error) (ctx : context) : M error :=
  fun t => (r, (t ++ [EvGraceful ctx])%list).

Definition probe_forceful : M unit := emit EvForceful.

(** Whether [Verify] treats the options as local development: the flag the
    caller may have set, or a host that is empty, "localhost" or starts
    with "localhost:". *)
Definition starts_local (o : Options) : bool :=
  is_local_host (Host o) || IsLocalDevelopmentHost o.

(** The port [Verify] resolves to. *)
Definition resolved_port (o : Options) : Z :=
  if Port o =? 0 then (if starts_local o then DefaultDevPort o else 80) else Port o.

(** The error of [Verify] as a decision table over the fields on entry. *)
Definition verify_error (o : Options) : error :=
  if (Port o =? 0) && starts_local o && (DefaultDevPort o =? 0) then Some ErrMissingPort
  else if LetsEncrypt o then
    if starts_local o then Some ErrLetsEncryptLocalhost
    else if String.eqb (LetsEncryptEmail o) EmptyString then Some ErrMissingEmail
    else if String.eqb (LetsEncryptCacheDir o) EmptyString then Some ErrMissingCacheDir
    else if negb (Port o =? 0) && negb (Port o =? 80) then Some (ErrPortNot80 (Port o))
    else None
  else None.

(** The record a successful [Verify] leaves. *)
Definition verified (o : Options) : Options :=
  mkOptions (Log o) (DefaultDevPort o) (GracefulShutdownTimeout o)
    (resolved_port o)
    (if String.eqb (Host o) EmptyString || String.eqb (Host o) "localhost"
     then "localhost:" ++ Itoa (resolved_port o) else Host o)
    (LetsEncrypt o) (LetsEncryptCacheDir o) (LetsEncryptEmail o)
    (starts_local o)
    (if starts_local o then "http" else "https").

(** The handle with its [log] field set to [f]. *)
Definition set_log (f : option (string -> M unit)) (srv : Server) : Server :=
  mkServer (httpServer srv) (httpsServer srv) (errc srv)
           (gracefulShutdownTimeout srv) f (baseURL srv) (endpoints srv).

(** What the blocks of [LoadEnv] store when their variable is unset or well
    formed: the record before the block and the record after it. *)
Definition port_stored (getenv : string -> string) (o o1 : Options) : Prop :=
  (getenv "PORT" = EmptyString /\ o1 = o)
  \/ (getenv "PORT" <> EmptyString
      /\ exists n, Atoi (getenv "PORT") = inl n /\ o1 = set_Port n o).

Definition host_stored (getenv : string -> string) (o1 o2 : Options) : Prop :=
  (getenv "HOST" = EmptyString /\ o2 = o1)
  \/ (getenv "HOST" <> EmptyString
      /\ host_has_schema (getenv "HOST") = false
      /\ o2 = set_Host (getenv "HOST") o1).

Definition email_stored (getenv : string -> string) (o2 o3 : Options) : Prop :=
  (getenv "LETSENCRYPT_EMAIL" = EmptyString /\ o3 = o2)
  \/ (getenv "LETSENCRYPT_EMAIL" <> EmptyString
      /\ Contains (getenv "LETSENCRYPT_EMAIL") "@" = true
      /\ o3 = set_LetsEncryptEmail (getenv "LETSENCRYPT_EMAIL") o2).

Definition cache_dir_stored (getenv : string -> string) (o3 o4 : Options) : Prop :=
  (getenv "LETSENCRYPT_CACHE_DIR" = EmptyString /\ o4 = o3)
  \/ (getenv "LETSENCRYPT_CACHE_DIR" <> EmptyString
      /\ o4 = set_LetsEncryptCacheDir (getenv "LETSENCRYPT_CACHE_DIR") o3).

Definition enabled_stored (getenv : string -> string) (o4 o5 : Options) : Prop :=
  (getenv "LETSENCRYPT_ENABLED" = EmptyString /\ o5 = o4)
  \/ (getenv "LETSENCRYPT_ENABLED" <> EmptyString
      /\ exists v, parseBool (getenv "LETSENCRYPT_ENABLED") = (v, true)
                   /\ o5 = set_LetsEncrypt v o4).

(** ** Sample inputs *)

(** Nothing set but the development port: the default development server. *)
Definition dev_options : Options :=
  mkOptions None 3001 0 0 EmptyString false EmptyString EmptyString false EmptyString.

(** Behind a reverse proxy: a public host, a custom port, no Let's Encrypt. *)
Definition proxy_options : Options :=
  mkOptions None 3001 0 8080 "myhost.example.com" false EmptyString EmptyString
            false EmptyString.

(** Standalone production: Let's Encrypt on a public host. *)
Definition tls_options : Options :=
  mkOptions None 3099 (2 * Second) 0 "myhost.example.com" true
            "/var/cache/easyhttpserver" "you@example.com" false EmptyString.

(** Let's Encrypt on port 8080 with the e-mail address left out. *)
Definition tls_8080_no_email : Options :=
  mkOptions None 0 0 8080 "myhost.example.com" true
            "/var/cache/easyhttpserver" EmptyString false EmptyString.

(** Let's Encrypt on port 8080, everything else in place. *)
Definition tls_8080 : Options :=
  mkOptions None 0 0 8080 "myhost.example.com" true
            "/var/cache/easyhttpserver" "you@example.com" false EmptyString.

(** Let's Encrypt on localhost, no port and no development port. *)
Definition tls_localhost_no_port : Options :=
  mkOptions None 0 0 0 "localhost" true
            "/var/cache/easyhttpserver" "you@example.com" false EmptyString.

(** Let's Encrypt on localhost with a port. *)
Definition tls_localhost_3001 : Options :=
  mkOptions None 0 0 3001 "localhost:3001" true
            "/var/cache/easyhttpserver" "you@example.com" false EmptyString.

(** Host given as plain "localhost", port 3001. *)
Definition localhost_3001 : Options :=
  mkOptions None 0 0 3001 "localhost" false EmptyString EmptyString false EmptyString.

(** Standalone production with a log function supplied by the caller. *)
Definition tls_options_logging : Options :=
  mkOptions (Some probe_log) 3099 (2 * Second) 0 "myhost.example.com" true
            "/var/cache/easyhttpserver" "you@example.com" false EmptyString.

(** Results of [http.Server.Shutdown]: the plain listener stops in time, the
    TLS listener runs into the deadline. *)
Definition tls_times_out (addr : string) : error :=
  if String.eqb addr ":https" then Some DeadlineExceeded else None.

(** An environment where the ACME endpoint is the expected one and every
    path is a directory. *)
Definition env_ok : Env := mkEnv ACMEv2URL (fun _ => StatInfo true).

(** * Properties *)

(** ** Strings *)

Lemma eqb_empty_iff (s : string) : String.eqb s EmptyString = true <-> s = EmptyString.
Proof. apply String.eqb_eq. Qed.

Lemma eqb_false_of_neq (s t : string) : s <> t -> String.eqb s t = false.
Proof. intros H. apply String.eqb_neq. exact H. Qed.

Lemma is_local_host_spec (h : string) :
  is_local_host h = true <->
  h = EmptyString \/ h = "localhost" \/ HasPrefix h "localhost:" = true.
Proof.
  unfold is_local_host.
  rewrite !orb_true_iff, !String.eqb_eq. tauto.
Qed.

(** ** Verify: what each block leaves untouched *)

Lemma verify_local_Port (o : Options) : Port (verify_local o) = Port o.
Proof. unfold verify_local. destruct (is_local_host (Host o)); reflexivity. Qed.

Lemma verify_local_Host (o : Options) : Host (verify_local o) = Host o.
Proof. unfold verify_local. destruct (is_local_host (Host o)); reflexivity. Qed.

Lemma verify_local_flag (o : Options) :
  IsLocalDevelopmentHost (verify_local o)
  = is_local_host (Host o) || IsLocalDevelopmentHost o.
Proof. unfold verify_local. destruct (is_local_host (Host o)); reflexivity. Qed.

Lemma verify_port_Host (o : Options) : Host (fst (verify_port o)) = Host o.
Proof.
  unfold verify_port.
  destruct (Port o =? 0), (IsLocalDevelopmentHost o), (DefaultDevPort o =? 0);
    reflexivity.
Qed.

Lemma verify_port_flag (o : Options) :
  IsLocalDevelopmentHost (fst (verify_port o)) = IsLocalDevelopmentHost o.
Proof.
  unfold verify_port.
  destruct (Port o =? 0); [|reflexivity].
  destruct (IsLocalDevelopmentHost o) eqn:E; [|exact E].
  destruct (DefaultDevPort o =? 0); exact E.
Qed.

Lemma verify_port_nonzero (o : Options) : Port o <> 0 -> verify_port o = (o, None).
Proof.
  intros H. unfold verify_port.
  destruct (Z.eqb_spec (Port o) 0); [contradiction | reflexivity].
Qed.

Lemma verify_scheme_Host (o : Options) : Host (verify_scheme o) = Host o.
Proof. unfold verify_scheme. destruct (IsLocalDevelopmentHost o); reflexivity. Qed.

Lemma verify_scheme_Port (o : Options) : Port (verify_scheme o) = Port o.
Proof. unfold verify_scheme. destruct (IsLocalDevelopmentHost o); reflexivity. Qed.

Lemma verify_host_Port (o : Options) : Port (verify_host o) = Port o.
Proof.
  unfold verify_host.
  destruct (String.eqb (Host o) EmptyString || String.eqb (Host o) "localhost");
    reflexivity.
Qed.

(** No block of [Verify] writes the fields that only [Start] reads. *)
Lemma Verify_frame (o : Options) :
  LetsEncrypt (fst (Verify o)) = LetsEncrypt o
  /\ GracefulShutdownTimeout (fst (Verify o)) = GracefulShutdownTimeout o
  /\ LetsEncryptCacheDir (fst (Verify o)) = LetsEncryptCacheDir o
  /\ LetsEncryptEmail (fst (Verify o)) = LetsEncryptEmail o
  /\ DefaultDevPort (fst (Verify o)) = DefaultDevPort o.
Proof.
  unfold Verify, verify_host, verify_scheme, verify_letsencrypt, verify_port,
    verify_local.
  repeat match goal with
         | |- context [if ?b then _ else _] => destruct b; simpl
         end; repeat split; reflexivity.
Qed.

(** A port the caller supplied is never replaced, whatever [Verify] returns. *)
Lemma Verify_keeps_nonzero_port (o : Options) : Port o <> 0 -> Port (fst (Verify o)) = Port o.
Proof.
  intros H. unfold Verify.
  rewrite verify_port_nonzero by (rewrite verify_local_Port; exact H).
  destruct (verify_letsencrypt (verify_local o)); simpl.
  - apply verify_local_Port.
  - rewrite verify_host_Port, verify_scheme_Port. apply verify_local_Port.
Qed.

(** With Let's Encrypt on, [Verify] succeeds only on port 80. *)
Lemma Verify_tls_ok_port (o : Options) :
  LetsEncrypt o = true -> snd (Verify o) = None -> Port (fst (Verify o)) = 80.
Proof.
  intros HL. unfold Verify.
  destruct (verify_port (verify_local o)) as [o2 [e|]] eqn:E2; [discriminate|].
  assert (HL2 : LetsEncrypt o2 = true).
  { revert E2. unfold verify_port, verify_local.
    repeat match goal with
           | |- context [if ?b then _ else _] => destruct b; simpl
           end; intros E; inversion E; subst; simpl; try exact HL; discriminate. }
  unfold verify_letsencrypt. rewrite HL2.
  destruct (IsLocalDevelopmentHost o2); [discriminate|].
  destruct (String.eqb (Host o2) EmptyString); [discriminate|].
  destruct (String.eqb (LetsEncryptEmail o2) EmptyString); [discriminate|].
  destruct (String.eqb (LetsEncryptCacheDir o2) EmptyString); [discriminate|].
  destruct (Z.eqb_spec (Port o2) 80) as [P|P]; simpl; [|discriminate].
  intros _. rewrite verify_host_Port, verify_scheme_Port. exact P.
Qed.

(** ** Verify: the Let's Encrypt checks *)

(** With Let's Encrypt on and the local-development flag up after the first
    statement, the outcome depends on the port fields only. *)
Lemma Verify_tls_local (o : Options) :
  LetsEncrypt o = true ->
  IsLocalDevelopmentHost (verify_local o) = true ->
  snd (Verify o) =
    if (Port o =? 0) && (DefaultDevPort o =? 0)
    then Some ErrMissingPort else Some ErrLetsEncryptLocalhost.
Proof.
  intros HL HF. unfold Verify, verify_port.
  rewrite HF, verify_local_Port.
  assert (HD : DefaultDevPort (verify_local o) = DefaultDevPort o)
    by (unfold verify_local; destruct (is_local_host (Host o)); reflexivity).
  assert (HL1 : LetsEncrypt (verify_local o) = true)
    by (unfold verify_local; destruct (is_local_host (Host o)); exact HL).
  rewrite HD.
  destruct (Port o =? 0); simpl.
  - destruct (DefaultDevPort o =? 0); simpl; [reflexivity|].
    unfold verify_letsencrypt; simpl. rewrite HL1, HF. reflexivity.
  - unfold verify_letsencrypt. rewrite HL1, HF. reflexivity.
Qed.

(** With Let's Encrypt on, a host that is not local and the e-mail and the
    cache directory given, only the port check remains. *)
Lemma Verify_tls_public (o : Options) :
  LetsEncrypt o = true ->
  is_local_host (Host o) = false ->
  IsLocalDevelopmentHost o = false ->
  LetsEncryptEmail o <> EmptyString ->
  LetsEncryptCacheDir o <> EmptyString ->
  Port o <> 0 -> Port o <> 80 ->
  Verify o = (o, Some (ErrPortNot80 (Port o))).
Proof.
  intros HL Hh HF He Hc P0 P80.
  assert (Hne : String.eqb (Host o) EmptyString = false).
  { unfold is_local_host in Hh. apply orb_false_iff in Hh as [Hh _].
    apply orb_false_iff in Hh as [Hh _]. exact Hh. }
  unfold Verify, verify_local. rewrite Hh.
  rewrite verify_port_nonzero by exact P0.
  unfold verify_letsencrypt. rewrite HL, HF, Hne.
  rewrite (eqb_false_of_neq _ _ He), (eqb_false_of_neq _ _ Hc).
  destruct (Z.eqb_spec (Port o) 80); [contradiction|]. reflexivity.
Qed.

Lemma not_local_host (h : string) :
  is_local_host h = false ->
  String.eqb h EmptyString = false /\ String.eqb h "localhost" = false.
Proof.
  unfold is_local_host. intros H.
  apply orb_false_iff in H as [H _]. apply orb_false_iff in H. exact H.
Qed.

Lemma local_of_default_host (h : string) :
  String.eqb h EmptyString || String.eqb h "localhost" = true ->
  is_local_host h = true.
Proof. unfold is_local_host. intros ->. reflexivity. Qed.

(** [Verify] in closed form: the error is read off [verify_error], and on
    success the record is [verified]. *)
Lemma Verify_closed_form (o : Options) :
  snd (Verify o) = verify_error o
  /\ (verify_error o = None -> fst (Verify o) = verified o).
Proof.
  pose proof (not_local_host (Host o)) as NL.
  unfold Verify, verify_error, verified, resolved_port, starts_local, verify_local,
    verify_port, verify_letsencrypt, verify_scheme, verify_host.
  destruct (is_local_host (Host o)) eqn:L;
    [clear NL | destruct (NL eq_refl) as [Hne Hnl]];
    destruct (IsLocalDevelopmentHost o) eqn:F;
    destruct (Port o =? 0) eqn:P0;
    destruct (DefaultDevPort o =? 0) eqn:D0;
    destruct (LetsEncrypt o) eqn:T;
    do 3 (simpl; rewrite ?L, ?F, ?P0, ?D0, ?T, ?Hne, ?Hnl);
    repeat match goal with
           | |- context [if ?b then _ else _] => destruct b eqn:?; simpl
           end;
    unfold set_Host, set_PrimaryScheme, set_Port, set_IsLocalDevelopmentHost;
    simpl; rewrite ?L, ?F, ?P0, ?D0, ?T, ?Hne, ?Hnl; simpl;
    (split; [reflexivity | try discriminate; intros _; reflexivity]).
Qed.

(** On options that are not local, a zero port is replaced by 80 before the
    Let's Encrypt checks, so it is 80 in the record also when they fail. *)
Lemma Verify_public_default_port (o : Options) :
  starts_local o = false -> Port o = 0 -> Port (fst (Verify o)) = 80.
Proof.
  unfold starts_local. intros SL P. apply orb_false_iff in SL as [L F].
  unfold Verify, verify_local, verify_port. rewrite L, P, F. cbn.
  destruct (verify_letsencrypt (set_Port 80 o)); cbn; [reflexivity|].
  rewrite verify_host_Port, verify_scheme_Port. reflexivity.
Qed.

(** C4, as stated, fails: with Let's Encrypt on and port 8080, a missing
    e-mail address is reported, not the port.  The checks of the Let's
    Encrypt block run in order and the port check is the last one. *)
Lemma Verify_tls_port_error_is_not_first :
  LetsEncrypt tls_8080_no_email = true
  /\ Port (fst (Verify tls_8080_no_email)) = 8080
  /\ Port (fst (Verify tls_8080_no_email)) <> 80
  /\ snd (Verify tls_8080_no_email) = Some ErrMissingEmail
  /\ snd (Verify tls_8080_no_email) <> Some (ErrPortNot80 8080).
Proof. vm_compute. repeat split; discriminate. Qed.

(** C4 (amended): [Verify] never changes a non-zero port supplied by the
    caller.  With Let's Encrypt on, a configuration whose port after
    [Verify] is not 80 is rejected, and the port is not made to fit.  The
    error is the one of the first check that fails, in the order of the
    code: in local-development mode the missing-port error when neither a
    port nor a development port is set and the not-supported-on-localhost
    error otherwise; else the missing-e-mail error, then the
    missing-cache-directory error; and the port-mismatch error, carrying
    the caller's port, exactly when all these earlier checks pass. *)
Theorem Verify_tls_port_mismatch (o : Options) :
  (Port o <> 0 -> Port (fst (Verify o)) = Port o)
  /\ (LetsEncrypt o = true ->
      Port (fst (Verify o)) <> 80 ->
      snd (Verify o) <> None
      /\ (is_local_host (Host o) = false ->
          IsLocalDevelopmentHost o = false ->
          LetsEncryptEmail o <> EmptyString ->
          LetsEncryptCacheDir o <> EmptyString ->
          snd (Verify o) = Some (ErrPortNot80 (Port o))
          /\ Port (fst (Verify o)) = Port o)
      /\ (starts_local o = true ->
          (Port o = 0 -> DefaultDevPort o = 0 ->
           snd (Verify o) = Some ErrMissingPort)
          /\ (Port o <> 0 \/ DefaultDevPort o <> 0 ->
              snd (Verify o) = Some ErrLetsEncryptLocalhost))
      /\ (starts_local o = false ->
          (LetsEncryptEmail o = EmptyString ->
           snd (Verify o) = Some ErrMissingEmail)
          /\ (LetsEncryptEmail o <> EmptyString ->
              LetsEncryptCacheDir o = EmptyString ->
              snd (Verify o) = Some ErrMissingCacheDir))
      /\ (snd (Verify o) = Some (ErrPortNot80 (Port o)) <->
          starts_local o = false
          /\ LetsEncryptEmail o <> EmptyString
          /\ LetsEncryptCacheDir o <> EmptyString)).
Proof.
  split; [apply Verify_keeps_nonzero_port|].
  intros HL P80.
  assert (PN : starts_local o = false -> Port o <> 0 /\ Port o <> 80).
  { intros SL. split; intros P; apply P80.
    - apply Verify_public_default_port; assumption.
    - rewrite Verify_keeps_nonzero_port; [exact P | rewrite P; discriminate]. }
  assert (KP : starts_local o = false -> Port (fst (Verify o)) = Port o).
  { intros SL. apply Verify_keeps_nonzero_port. apply PN. exact SL. }
  destruct (Verify_closed_form o) as [E _]. rewrite E. clear E.
  unfold verify_error. rewrite HL.
  destruct (starts_local o) eqn:SL.
  - (* local-development mode: the port decides between two errors *)
    rewrite andb_true_r.
    assert (SL' : is_local_host (Host o) = false ->
                  IsLocalDevelopmentHost o = false -> False).
    { intros L F. unfold starts_local in SL. rewrite L, F in SL. discriminate. }
    split; [destruct ((Port o =? 0) && (DefaultDevPort o =? 0)); discriminate|].
    split; [intros L F; destruct (SL' L F)|].
    split; [intros _; split|].
    + intros P D. rewrite P, D. reflexivity.
    + intros [P|D].
      * destruct (Z.eqb_spec (Port o) 0); [contradiction | reflexivity].
      * destruct (Z.eqb_spec (DefaultDevPort o) 0); [contradiction|].
        rewrite andb_false_r. reflexivity.
    + split; [discriminate|]. split.
      * destruct ((Port o =? 0) && (DefaultDevPort o =? 0)); discriminate.
      * intros (N & _). discriminate.
  - (* not local: e-mail, cache directory, then the port *)
    destruct (PN eq_refl) as [P0 P80'].
    destruct (Z.eqb_spec (Port o) 0) as [|_]; [contradiction|].
    destruct (Z.eqb_spec (Port o) 80) as [|_]; [contradiction|]. cbn.
    destruct (String.eqb_spec (LetsEncryptEmail o) EmptyString) as [Em|Em];
      [|destruct (String.eqb_spec (LetsEncryptCacheDir o) EmptyString) as [Ca|Ca]].
    + (* no e-mail address *)
      split; [discriminate|].
      split; [intros _ _ He; contradiction|].
      split; [discriminate|].
      split; [split; [reflexivity | intros He; contradiction]|].
      split; [discriminate | intros (_ & He & _); contradiction].
    + (* no cache directory *)
      split; [discriminate|].
      split; [intros _ _ _ Hc; contradiction|].
      split; [discriminate|].
      split; [split; [intros He; contradiction | reflexivity]|].
      split; [discriminate | intros (_ & _ & Hc); contradiction].
    + (* only the port is wrong *)
      split; [discriminate|].
      split; [intros _ _ _ _; split; [reflexivity | apply KP; reflexivity]|].
      split; [discriminate|].
      split; [split; [intros He; contradiction | intros _ Hc; contradiction]|].
      split; [intros _; repeat split; assumption | reflexivity].
Qed.

Lemma Verify_tls_port_mismatch_witness :
  Port (fst (Verify tls_8080)) = 8080
  /\ snd (Verify tls_8080) <> None
  /\ snd (Verify tls_8080) = Some (ErrPortNot80 8080)
  /\ Port (fst (Verify tls_8080)) = 8080
  /\ snd (Verify tls_8080_no_email) = Some ErrMissingEmail
  /\ snd (Verify tls_localhost_3001) = Some ErrLetsEncryptLocalhost.
Proof.
  destruct (Verify_tls_port_mismatch tls_8080) as [H1 H2].
  split; [apply H1; vm_compute; discriminate|].
  destruct H2 as (H2 & H3 & _); [reflexivity | vm_compute; discriminate |].
  split; [exact H2|].
  split; [apply H3; [reflexivity | reflexivity | discriminate | discriminate]|].
  split; [apply H3; [reflexivity | reflexivity | discriminate | discriminate]|].
  split.
  - destruct (Verify_tls_port_mismatch tls_8080_no_email) as [_ K].
    destruct K as (_ & _ & _ & K & _); [reflexivity | vm_compute; discriminate |].
    apply K; reflexivity.
  - destruct (Verify_tls_port_mismatch tls_localhost_3001) as [_ K].
    destruct K as (_ & _ & K & _); [reflexivity | vm_compute; discriminate |].
    apply K; [reflexivity|]. left. vm_compute. discriminate.
Defined.

(** C5, as stated, fails: with Let's Encrypt on, host "localhost", no port
    and no development port, the error is the missing-port one, because the
    port is resolved before the Let's Encrypt checks. *)
Lemma Verify_tls_localhost_error_depends_on_port :
  LetsEncrypt tls_localhost_no_port = true
  /\ Host tls_localhost_no_port = "localhost"
  /\ snd (Verify tls_localhost_no_port) = Some ErrMissingPort
  /\ snd (Verify tls_localhost_no_port) <> Some ErrLetsEncryptLocalhost.
Proof. vm_compute. repeat split; discriminate. Qed.

(** C5 (amended): with Let's Encrypt on and a host that is empty,
    "localhost" or starts with "localhost:", [Verify] fails whatever the
    other fields hold; the error is the not-supported-on-localhost one
    whenever the port or the development port is non-zero, and the
    missing-port one when both are zero. *)
Theorem Verify_tls_localhost (o : Options) :
  LetsEncrypt o = true ->
  Host o = EmptyString \/ Host o = "localhost" \/ HasPrefix (Host o) "localhost:" = true ->
  snd (Verify o) <> None
  /\ (Port o <> 0 \/ DefaultDevPort o <> 0 ->
      snd (Verify o) = Some ErrLetsEncryptLocalhost)
  /\ (Port o = 0 -> DefaultDevPort o = 0 -> snd (Verify o) = Some ErrMissingPort).
Proof.
  intros HL Hh. apply is_local_host_spec in Hh.
  assert (HF : IsLocalDevelopmentHost (verify_local o) = true)
    by (rewrite verify_local_flag, Hh; reflexivity).
  rewrite (Verify_tls_local o HL HF).
  split; [|split].
  - destruct ((Port o =? 0) && (DefaultDevPort o =? 0)); discriminate.
  - intros [P|D].
    + destruct (Z.eqb_spec (Port o) 0); [contradiction | reflexivity].
    + destruct (Z.eqb_spec (DefaultDevPort o) 0); [contradiction|].
      rewrite andb_false_r. reflexivity.
  - intros P D. rewrite P, D. reflexivity.
Qed.

Lemma Verify_tls_localhost_witness :
  snd (Verify tls_localhost_3001) <> None
  /\ snd (Verify tls_localhost_3001) = Some ErrLetsEncryptLocalhost.
Proof.
  destruct (Verify_tls_localhost tls_localhost_3001) as [H1 [H2 _]].
  - reflexivity.
  - right; right. reflexivity.
  - split; [exact H1|]. apply H2. left. vm_compute. discriminate.
Defined.

(** ** Verify: the development defaults, and BaseURL *)

(** C6: with the host empty, the port zero, Let's Encrypt off and a
    non-zero development port, [Verify] succeeds, raises the
    local-development flag, sets the scheme to "http", resolves the port to
    the development port and sets the host to "localhost:<devport>"; with
    development port 3001, [BaseURL] then returns "http://localhost:3001". *)
Theorem Verify_dev_defaults (o : Options) :
  Host o = EmptyString ->
  Port o = 0 ->
  LetsEncrypt o = false ->
  DefaultDevPort o <> 0 ->
  snd (Verify o) = None
  /\ IsLocalDevelopmentHost (fst (Verify o)) = true
  /\ PrimaryScheme (fst (Verify o)) = "http"
  /\ Port (fst (Verify o)) = DefaultDevPort o
  /\ Host (fst (Verify o)) = "localhost:" ++ Itoa (DefaultDevPort o)
  /\ (DefaultDevPort o = 3001 ->
      BaseURL (fst (Verify o)) = Returns "http://localhost:3001").
Proof.
  intros Hh Hp Hl Hd.
  assert (E : Verify o =
              (set_Host ("localhost:" ++ Itoa (DefaultDevPort o))
                 (set_PrimaryScheme "http"
                    (set_Port (DefaultDevPort o)
                       (set_IsLocalDevelopmentHost true o))), None)).
  { unfold Verify, verify_local, is_local_host. rewrite Hh. simpl.
    unfold verify_port. simpl. rewrite Hp. simpl.
    destruct (Z.eqb_spec (DefaultDevPort o) 0); [contradiction|].
    unfold verify_letsencrypt. simpl. rewrite Hl.
    unfold verify_scheme, verify_host. simpl. rewrite Hh. reflexivity. }
  rewrite E. simpl. repeat split.
  intros D. unfold BaseURL. simpl. rewrite D. reflexivity.
Qed.

Lemma Verify_dev_defaults_witness :
  snd (Verify dev_options) = None
  /\ IsLocalDevelopmentHost (fst (Verify dev_options)) = true
  /\ PrimaryScheme (fst (Verify dev_options)) = "http"
  /\ Port (fst (Verify dev_options)) = 3001
  /\ Host (fst (Verify dev_options)) = "localhost:3001"
  /\ BaseURL (fst (Verify dev_options)) = Returns "http://localhost:3001".
Proof.
  destruct (Verify_dev_defaults dev_options) as (H1 & H2 & H3 & H4 & H5 & H6);
    [reflexivity | reflexivity | reflexivity | vm_compute; discriminate |].
  exact (conj H1 (conj H2 (conj H3 (conj H4 (conj H5 (H6 eq_refl)))))).
Defined.

(** C8: on a configuration whose primary scheme is still unset, [BaseURL]
    panics and returns no value. *)
Theorem BaseURL_before_Verify_panics (o : Options) :
  PrimaryScheme o = EmptyString ->
  BaseURL o = Panics (PanicString "BaseURL before Verify")
  /\ (forall s, BaseURL o <> Returns s).
Proof.
  intros H. unfold BaseURL. rewrite H. simpl.
  split; [reflexivity | discriminate].
Qed.

Lemma BaseURL_before_Verify_panics_witness :
  BaseURL dev_options = Panics (PanicString "BaseURL before Verify")
  /\ (forall s, BaseURL dev_options <> Returns s).
Proof. apply (BaseURL_before_Verify_panics dev_options). reflexivity. Defined.

(** After a successful [Verify] both the scheme and the host are set, so
    [BaseURL] returns. *)
Lemma Verify_ok_BaseURL (o : Options) :
  snd (Verify o) = None ->
  BaseURL (fst (Verify o))
  = Returns (PrimaryScheme (fst (Verify o)) ++ "://" ++ Host (fst (Verify o))).
Proof.
  unfold Verify.
  destruct (verify_port (verify_local o)) as [o2 [e|]]; [discriminate|].
  destruct (verify_letsencrypt o2); [discriminate|]. intros _. simpl.
  unfold BaseURL, verify_host, verify_scheme.
  destruct (IsLocalDevelopmentHost o2); simpl;
    destruct (String.eqb (Host o2) EmptyString) eqn:E; simpl;
      try reflexivity;
      destruct (String.eqb (Host o2) "localhost"); simpl;
        try rewrite E; reflexivity.
Qed.

(** ** Verify: the synthesized host *)

(** C9, as stated, fails: the host "localhost" is not empty on entry, and a
    successful [Verify] replaces it with "localhost:3001". *)
Lemma Verify_rewrites_localhost :
  Host localhost_3001 = "localhost"
  /\ Host localhost_3001 <> EmptyString
  /\ snd (Verify localhost_3001) = None
  /\ Host (fst (Verify localhost_3001)) = "localhost:3001"
  /\ Host (fst (Verify localhost_3001)) <> Host localhost_3001.
Proof. vm_compute. repeat split; discriminate. Qed.

(** C9 (amended): a successful [Verify] sets the host to
    "localhost:<port>", with the resolved port, when the host on entry is
    empty or equal to "localhost", and leaves every other host unchanged. *)
Theorem Verify_host_synthesis (o : Options) :
  snd (Verify o) = None ->
  (Host o = EmptyString \/ Host o = "localhost" ->
   Host (fst (Verify o)) = "localhost:" ++ Itoa (Port (fst (Verify o))))
  /\ (Host o <> EmptyString -> Host o <> "localhost" ->
      Host (fst (Verify o)) = Host o).
Proof.
  unfold Verify.
  pose proof (verify_port_Host (verify_local o)) as HH.
  rewrite verify_local_Host in HH.
  destruct (verify_port (verify_local o)) as [o2 [e|]]; [discriminate|].
  simpl in HH.
  destruct (verify_letsencrypt o2); [discriminate|]. intros _. simpl.
  rewrite verify_host_Port, verify_scheme_Port.
  unfold verify_host. rewrite verify_scheme_Host, HH.
  split.
  - intros [E|E]; rewrite E; simpl; rewrite verify_scheme_Port; reflexivity.
  - intros N1 N2.
    rewrite (eqb_false_of_neq _ _ N1), (eqb_false_of_neq _ _ N2). simpl.
    rewrite verify_scheme_Host. exact HH.
Qed.

Lemma Verify_host_synthesis_witness :
  Host (fst (Verify proxy_options)) = "myhost.example.com"
  /\ Host (fst (Verify localhost_3001)) = "localhost:3001".
Proof.
  split.
  - apply (Verify_host_synthesis proxy_options);
      [reflexivity | discriminate | discriminate].
  - apply (Verify_host_synthesis localhost_3001); [reflexivity|].
    right. reflexivity.
Defined.

(** ** Start: what a successful call has built *)

Lemma start_options_ok (sopt o : Options) :
  start_options sopt = (o, None) ->
  LetsEncrypt o = LetsEncrypt sopt
  /\ GracefulShutdownTimeout o
     = (if GracefulShutdownTimeout sopt =? 0 then 10 * Second
        else GracefulShutdownTimeout sopt).
Proof.
  unfold start_options.
  destruct (String.eqb (PrimaryScheme sopt) EmptyString).
  - pose proof (Verify_frame sopt) as (FL & FG & _).
    destruct (Verify sopt) as [o1 [e|]]; [discriminate|]. simpl in FL, FG.
    rewrite <- FL, <- FG.
    destruct (GracefulShutdownTimeout o1 =? 0); intros H; inversion H; subst;
      split; reflexivity.
  - destruct (GracefulShutdownTimeout sopt =? 0); intros H; inversion H; subst;
      split; reflexivity.
Qed.

Lemma start_server_ok (env : Env) (handler : Handler) (o : Options)
    (srv : Server) (gs : list goroutine) :
  start_server env handler o = Returns (Started srv gs) ->
  exists base,
    BaseURL o = Returns base
    /\ srv = mkServer (Some (plain_listener handler o))
               (if LetsEncrypt o then Some (tls_listener handler o) else None)
               (make_chan 2) (GracefulShutdownTimeout o) None base
               (start_endpoints o base)
    /\ gs = (if LetsEncrypt o
             then [GoListenAndServeTLS (tls_listener handler o);
                   GoListenAndServe (plain_listener handler o)]
             else [GoListenAndServe (plain_listener handler o)]).
Proof.
  unfold start_server, plain_listener, tls_listener.
  destruct (BaseURL o) as [base|p]; [|discriminate].
  destruct (negb (String.eqb (acmeLetsEncryptURL env) ACMEv2URL)); [discriminate|].
  destruct (LetsEncrypt o).
  - destruct (osStat env (LetsEncryptCacheDir o)) as [c|[|]]; try discriminate.
    simpl. intros H. inversion H; subst. exists base. repeat split.
  - simpl. intros H. inversion H; subst. exists base. repeat split.
Qed.

Lemma Start_ok (env : Env) (handler : Handler) (sopt : Options)
    (srv : Server) (gs : list goroutine) :
  Start env handler sopt = Returns (Started srv gs) ->
  exists o,
    start_options sopt = (o, None)
    /\ start_server env handler o = Returns (Started srv gs).
Proof.
  unfold Start.
  destruct (start_options sopt) as [o [e|]]; [discriminate|].
  intros H. exists o. split; [reflexivity | exact H].
Qed.

(** ** Start: the completion channel *)

Lemma send_all_fits (vs : list error) (c : Chan) :
  (List.length (chanBuf c) + List.length vs <= chanCap c)%nat ->
  send_all c vs = Some (mkChan (chanCap c) (chanBuf c ++ vs)%list).
Proof.
  revert c. induction vs as [|v vs IH]; intros c H; simpl.
  - rewrite app_nil_r. destruct c; reflexivity.
  - simpl in H. unfold send.
    destruct (Nat.ltb_spec (List.length (chanBuf c)) (chanCap c)); [|lia].
    rewrite IH; simpl.
    + rewrite <- app_assoc. reflexivity.
    + rewrite length_app. simpl. lia.
Qed.

(** C1, as stated, fails: with Let's Encrypt off one goroutine is started,
    and the channel has capacity 2. *)
Lemma Start_capacity_is_not_listener_count :
  exists srv gs,
    Start env_ok (CallerHandler 0) dev_options = Returns (Started srv gs)
    /\ LetsEncrypt dev_options = false
    /\ List.length gs = 1%nat
    /\ chanCap (errc srv) = 2%nat
    /\ chanCap (errc srv) <> List.length gs.
Proof.
  eexists. eexists. split; [vm_compute; reflexivity|].
  repeat split. simpl. discriminate.
Qed.

(** C1 (amended): for every started server the completion channel has
    capacity 2, whatever the TLS mode; the number of started listener
    goroutines is 1 with Let's Encrypt off and 2 with it on, so it never
    exceeds the capacity, and the reports of all started goroutines are
    buffered without blocking even when nobody receives. *)
Theorem Start_channel_capacity (env : Env) (handler : Handler) (sopt : Options)
    (srv : Server) (gs : list goroutine) :
  Start env handler sopt = Returns (Started srv gs) ->
  chanCap (errc srv) = 2%nat
  /\ chanBuf (errc srv) = []
  /\ List.length gs = (if LetsEncrypt sopt then 2 else 1)%nat
  /\ (List.length gs <= chanCap (errc srv))%nat
  /\ (forall results : list error,
        List.length results = List.length gs ->
        send_all (errc srv) (map report results)
        = Some (mkChan 2 (map report results))).
Proof.
  intros H.
  destruct (Start_ok _ _ _ _ _ H) as (o & Ho & Hs).
  destruct (start_options_ok _ _ Ho) as (HL & _).
  destruct (start_server_ok _ _ _ _ _ Hs) as (base & _ & -> & ->).
  rewrite HL. simpl.
  assert (Hlen : (List.length (if LetsEncrypt sopt
                               then [GoListenAndServeTLS (tls_listener handler o);
                                     GoListenAndServe (plain_listener handler o)]
                               else [GoListenAndServe (plain_listener handler o)])
                  = if LetsEncrypt sopt then 2 else 1)%nat)
    by (destruct (LetsEncrypt sopt); reflexivity).
  rewrite Hlen.
  repeat split.
  - destruct (LetsEncrypt sopt); lia.
  - intros results Hr.
    rewrite send_all_fits; [reflexivity|].
    simpl. rewrite length_map, Hr. destruct (LetsEncrypt sopt); lia.
Qed.

Lemma Start_channel_capacity_witness :
  exists srv gs,
    Start env_ok (CallerHandler 0) tls_options = Returns (Started srv gs)
    /\ chanCap (errc srv) = 2%nat
    /\ List.length gs = 2%nat.
Proof.
  eexists. eexists.
  assert (H : Start env_ok (CallerHandler 0) tls_options = Returns (Started _ _))
    by (vm_compute; reflexivity).
  split; [exact H|].
  destruct (Start_channel_capacity _ _ _ _ _ H) as (H1 & _ & H2 & _).
  split; [exact H1 | exact H2].
Defined.

(** ** Start: endpoints and the shutdown timeout *)

(** C7, as stated, fails: started on a public host with Let's Encrypt off
    and port 8080, the server has two endpoints, the base URL and the
    loopback address with the port. *)
Lemma Start_proxy_has_loopback_endpoint :
  exists srv gs,
    Start env_ok (CallerHandler 0) proxy_options = Returns (Started srv gs)
    /\ IsLocalDevelopmentHost (fst (start_options proxy_options)) = false
    /\ LetsEncrypt (fst (start_options proxy_options)) = false
    /\ Port (fst (start_options proxy_options)) = 8080
    /\ Endpoints srv = ["https://myhost.example.com"; "127.0.0.1:8080"]
    /\ List.length (Endpoints srv) <> 1%nat.
Proof.
  eexists. eexists. split; [vm_compute; reflexivity|].
  repeat split. simpl. discriminate.
Qed.

(** C7 (amended): for every server started with options that, once
    validated, are not in local-development mode, have Let's Encrypt off and
    port 8080, the endpoint list has exactly two entries: the base URL, then
    the loopback supplement "127.0.0.1:8080". *)
Theorem Start_endpoints_port_8080 (env : Env) (handler : Handler) (sopt : Options)
    (srv : Server) (gs : list goroutine) :
  Start env handler sopt = Returns (Started srv gs) ->
  IsLocalDevelopmentHost (fst (start_options sopt)) = false ->
  LetsEncrypt (fst (start_options sopt)) = false ->
  Port (fst (start_options sopt)) = 8080 ->
  Endpoints srv = [Server_BaseURL srv; "127.0.0.1:8080"]
  /\ List.length (Endpoints srv) = 2%nat.
Proof.
  intros H.
  destruct (Start_ok _ _ _ _ _ H) as (o & Ho & Hs).
  rewrite Ho. simpl. intros HF _ HP.
  destruct (start_server_ok _ _ _ _ _ Hs) as (base & _ & -> & _).
  unfold Endpoints, Server_BaseURL, start_endpoints. simpl.
  rewrite HF, HP. simpl. split; reflexivity.
Qed.

Lemma Start_endpoints_port_8080_witness :
  exists srv gs,
    Start env_ok (CallerHandler 0) proxy_options = Returns (Started srv gs)
    /\ Endpoints srv = [Server_BaseURL srv; "127.0.0.1:8080"]
    /\ List.length (Endpoints srv) = 2%nat.
Proof.
  eexists. eexists.
  assert (H : Start env_ok (CallerHandler 0) proxy_options = Returns (Started _ _))
    by (vm_compute; reflexivity).
  split; [exact H|].
  apply (Start_endpoints_port_8080 _ _ _ _ _ H); reflexivity.
Defined.

(** The loopback supplement in general: it is appended exactly when the
    options are not local and the port is not 80. *)
Lemma start_endpoints_length (o : Options) (base : string) :
  List.length (start_endpoints o base)
  = if negb (IsLocalDevelopmentHost o) && negb (Port o =? 80) then 2%nat else 1%nat.
Proof.
  unfold start_endpoints.
  destruct (negb (IsLocalDevelopmentHost o) && negb (Port o =? 80)); reflexivity.
Qed.

(** C10: a server created by [Start] from options with a zero graceful
    shutdown timeout has a deadline of 10 seconds; a non-zero timeout of the
    caller is used as it is. *)
Theorem Start_graceful_timeout (env : Env) (handler : Handler) (sopt : Options)
    (srv : Server) (gs : list goroutine) :
  Start env handler sopt = Returns (Started srv gs) ->
  (GracefulShutdownTimeout sopt = 0 ->
   gracefulShutdownTimeout srv = 10 * Second)
  /\ (GracefulShutdownTimeout sopt <> 0 ->
      gracefulShutdownTimeout srv = GracefulShutdownTimeout sopt).
Proof.
  intros H.
  destruct (Start_ok _ _ _ _ _ H) as (o & Ho & Hs).
  destruct (start_options_ok _ _ Ho) as (_ & HG).
  destruct (start_server_ok _ _ _ _ _ Hs) as (base & _ & -> & _).
  simpl. rewrite HG. split; intros E.
  - rewrite E. reflexivity.
  - destruct (Z.eqb_spec (GracefulShutdownTimeout sopt) 0);
      [contradiction | reflexivity].
Qed.

Lemma Start_graceful_timeout_witness :
  (exists srv gs,
      Start env_ok (CallerHandler 0) dev_options = Returns (Started srv gs)
      /\ gracefulShutdownTimeout srv = 10000000000)
  /\ (exists srv gs,
         Start env_ok (CallerHandler 0) tls_options = Returns (Started srv gs)
         /\ gracefulShutdownTimeout srv = 2000000000).
Proof.
  split; eexists; eexists.
  - assert (H : Start env_ok (CallerHandler 0) dev_options = Returns (Started _ _))
      by (vm_compute; reflexivity).
    split; [exact H|].
    apply (Start_graceful_timeout _ _ _ _ _ H). reflexivity.
  - assert (H : Start env_ok (CallerHandler 0) tls_options = Returns (Started _ _))
      by (vm_compute; reflexivity).
    split; [exact H|].
    apply (Start_graceful_timeout _ _ _ _ _ H). vm_compute. discriminate.
Defined.

(** ** Wait *)

(** [Wait] on any handle: it consumes exactly [listener_count] arrivals and
    returns the first non-nil one; with fewer arrivals it blocks. *)
Lemma Wait_spec (srv : Server) (arrivals : list error) :
  ((listener_count srv <= List.length arrivals)%nat ->
   Wait srv arrivals
   = Some (first_non_nil (firstn (listener_count srv) arrivals),
           skipn (listener_count srv) arrivals))
  /\ ((List.length arrivals < listener_count srv)%nat ->
      Wait srv arrivals = None).
Proof.
  unfold Wait, listener_count, wait_recv.
  destruct (httpServer srv), (httpsServer srv); simpl;
    destruct arrivals as [|[e1|] [|[e2|] rest]]; simpl; split;
      intros; try reflexivity; lia.
Qed.

(** C2: for every started server, [Wait] receives exactly once per started
    listener goroutine (once with Let's Encrypt off, twice with it on): given
    at least that many completions it consumes that many and returns the
    first non-nil error among them, or nil when they are all nil; given
    fewer, it blocks. *)
Theorem Wait_started_server (env : Env) (handler : Handler) (sopt : Options)
    (srv : Server) (gs : list goroutine) (arrivals : list error) :
  Start env handler sopt = Returns (Started srv gs) ->
  List.length gs = (if LetsEncrypt sopt then 2 else 1)%nat
  /\ ((List.length gs <= List.length arrivals)%nat ->
      Wait srv arrivals
      = Some (first_non_nil (firstn (List.length gs) arrivals),
              skipn (List.length gs) arrivals))
  /\ ((List.length arrivals < List.length gs)%nat -> Wait srv arrivals = None).
Proof.
  intros H.
  destruct (Start_ok _ _ _ _ _ H) as (o & Ho & Hs).
  destruct (start_options_ok _ _ Ho) as (HL & _).
  destruct (start_server_ok _ _ _ _ _ Hs) as (base & _ & Hsrv & Hgs).
  assert (Hn : List.length gs = listener_count srv).
  { rewrite Hsrv, Hgs. unfold listener_count. simpl.
    destruct (LetsEncrypt o); reflexivity. }
  split.
  - rewrite Hgs, <- HL. destruct (LetsEncrypt o); reflexivity.
  - rewrite Hn. apply Wait_spec.
Qed.

Lemma Wait_started_server_witness :
  exists srv gs,
    Start env_ok (CallerHandler 0) tls_options = Returns (Started srv gs)
    /\ Wait srv [None; Some (ErrOther "accept failed"); Some (ErrOther "too late")]
       = Some (Some (ErrOther "accept failed"), [Some (ErrOther "too late")])
    /\ Wait srv [None; None] = Some (None, [])
    /\ Wait srv [Some (ErrOther "accept failed")] = None.
Proof.
  eexists. eexists.
  assert (H : Start env_ok (CallerHandler 0) tls_options = Returns (Started _ _))
    by (vm_compute; reflexivity).
  split; [exact H|].
  split; [|split].
  - apply (Wait_started_server _ _ _ _ _
             [None; Some (ErrOther "accept failed"); Some (ErrOther "too late")] H).
    simpl. lia.
  - apply (Wait_started_server _ _ _ _ _ [None; None] H). simpl. lia.
  - apply (Wait_started_server _ _ _ _ _ [Some (ErrOther "accept failed")] H).
    simpl. lia.
Defined.

(** ** Shutdown *)

(** X19: whatever the callbacks do, the last thing [gracefulShutdown] does
    is to run [forceful]. *)
Lemma gracefulShutdown_ends_with_forceful (logf : string -> M unit) (period : Z)
    (graceful : context -> M error) (forceful : M unit) (t : trace) :
  exists t1, snd (gracefulShutdown logf period graceful forceful t) = snd (forceful t1).
Proof.
  unfold gracefulShutdown, defer at 1.
  match goal with
  | |- context [match ?b t with _ => _ end] => destruct (b t) as [r t1]
  end.
  exists t1. destruct (forceful t1) as [[u|p] t2]; reflexivity.
Qed.

(** The coordinator on recording callbacks: [gracefulShutdown] runs the
    forceful step on every invocation, whether the graceful step returns
    nil, returns an error or panics; when the graceful step returns the
    deadline-exceeded error the log function it was given is called and the
    coordinator returns normally; when it returns any other error the
    coordinator panics with that error, after the forceful step has run. *)
Theorem gracefulShutdown_outcomes (period : Z) (t : trace) :
  let ctx := mkContext period in
  let run r := gracefulShutdown probe_log period (probe_graceful r) probe_forceful t in
  (forall r, exists t1, snd (run r) = (t1 ++ [EvForceful])%list)
  /\ run (Returns None)
     = (Returns tt, (t ++ [EvGraceful ctx; EvCancel ctx; EvForceful])%list)
  /\ run (Returns (Some DeadlineExceeded))
     = (Returns tt,
        (t ++ [EvGraceful ctx; EvLog timeout_message; EvCancel ctx; EvForceful])%list)
  /\ (forall e, e <> DeadlineExceeded ->
        run (Returns (Some e))
        = (Panics (PanicError e),
           (t ++ [EvGraceful ctx; EvCancel ctx; EvForceful])%list)).
Proof.
  intros ctx run. subst run ctx.
  unfold gracefulShutdown, defer, bind, probe_graceful, probe_forceful, probe_log,
    emit, panic, ret.
  split; [|split; [|split]].
  - intros [[[]|]|p]; eexists; simpl; reflexivity.
  - simpl. rewrite <- !app_assoc. reflexivity.
  - simpl. rewrite <- !app_assoc. reflexivity.
  - intros e He. destruct e; try contradiction; simpl;
      rewrite <- !app_assoc; reflexivity.
Qed.

Lemma gracefulShutdown_outcomes_witness :
  gracefulShutdown probe_log (10 * Second)
    (probe_graceful (Returns (Some (ErrOther "listener is gone")))) probe_forceful []
  = (Panics (PanicError (ErrOther "listener is gone")),
     [EvGraceful (mkContext (10 * Second)); EvCancel (mkContext (10 * Second));
      EvForceful]).
Proof.
  apply (gracefulShutdown_outcomes (10 * Second) []). discriminate.
Defined.

(** [Start] leaves the [log] field of the handle unset, so the [Log] method
    of a started server does nothing. *)
Lemma Start_leaves_log_unset (env : Env) (handler : Handler) (sopt : Options)
    (srv : Server) (gs : list goroutine) :
  Start env handler sopt = Returns (Started srv gs) ->
  log srv = None /\ forall format, Server_Log srv format = ret tt.
Proof.
  intros H.
  destruct (Start_ok _ _ _ _ _ H) as (o & _ & Hs).
  destruct (start_server_ok _ _ _ _ _ Hs) as (base & _ & -> & _).
  unfold Server_Log. simpl. split; reflexivity.
Qed.

(** [Shutdown] of a started server closes every listener it holds, whatever
    the graceful phase returned. *)
Lemma Shutdown_started_closes_listeners (env : Env) (handler : Handler)
    (sopt : Options) (srv : Server) (gs : list goroutine)
    (result : string -> error) (t : trace) :
  Start env handler sopt = Returns (Started srv gs) ->
  exists t1 port,
    snd (Shutdown result srv t)
    = (t1 ++ EvClose port
          :: (if LetsEncrypt sopt then [EvClose ":https"] else []))%list.
Proof.
  intros H.
  destruct (Start_ok _ _ _ _ _ H) as (o & Ho & Hs).
  destruct (start_options_ok _ _ Ho) as (HL & _).
  destruct (start_server_ok _ _ _ _ _ Hs) as (base & _ & -> & _).
  rewrite <- HL.
  unfold Shutdown, gracefulShutdown, defer at 1. simpl.
  match goal with
  | |- context [match ?b t with _ => _ end] => destruct (b t) as [r t1]
  end.
  exists t1, (":" ++ Itoa (Port o)).
  unfold bind, http_Close, emit, ret.
  destruct (LetsEncrypt o); simpl.
  - rewrite <- app_assoc. reflexivity.
  - reflexivity.
Qed.

(** C3 (defect of the code): the claim holds of the coordinator, but not of
    the program, in its clause on logging.  [Start] builds the handle
    without the [Log] function of the options, so the [Log] method, which
    [Shutdown] hands to [gracefulShutdown], does nothing.  On a server
    started with a log function, a [Shutdown] whose graceful phase runs
    into the deadline returns normally and closes both listeners, and the
    log function is never called; with the log function of the options in
    the handle, the same call logs the timeout. *)
Theorem Shutdown_timeout_is_not_logged :
  exists srv gs,
    Start env_ok (CallerHandler 0) tls_options_logging = Returns (Started srv gs)
    /\ Log tls_options_logging = Some probe_log
    /\ log srv = None
    /\ Shutdown tls_times_out srv []
       = (Returns tt,
          [EvShutdown ":80" (mkContext (2 * Second));
           EvShutdown ":https" (mkContext (2 * Second));
           EvCancel (mkContext (2 * Second));
           EvClose ":80"; EvClose ":https"])
    /\ (forall format, ~ In (EvLog format) (snd (Shutdown tls_times_out srv [])))
    /\ Shutdown tls_times_out (set_log (Log tls_options_logging) srv) []
       = (Returns tt,
          [EvShutdown ":80" (mkContext (2 * Second));
           EvShutdown ":https" (mkContext (2 * Second));
           EvLog timeout_message;
           EvCancel (mkContext (2 * Second));
           EvClose ":80"; EvClose ":https"]).
Proof.
  eexists. eexists. split; [vm_compute; reflexivity|].
  split; [reflexivity|]. split; [reflexivity|]. split; [reflexivity|].
  split; [|reflexivity].
  intros format H. cbn in H.
  repeat match goal with
         | H : _ \/ _ |- _ => destruct H as [H|H]
         end; try discriminate H; exact H.
Qed.


(** * Further properties *)

(** ** Verify as a whole *)

(** The statement of the next theorem, for use in the proofs below. *)
Lemma Verify_succeeds_iff_core (o : Options) :
  snd (Verify o) = None <->
  (starts_local o = true -> Port o <> 0 \/ DefaultDevPort o <> 0)
  /\ (LetsEncrypt o = true ->
      starts_local o = false
      /\ LetsEncryptEmail o <> EmptyString
      /\ LetsEncryptCacheDir o <> EmptyString
      /\ (Port o = 0 \/ Port o = 80)).
Proof.
  destruct (Verify_closed_form o) as [-> _]. unfold verify_error.
  destruct (starts_local o), (LetsEncrypt o);
    destruct (Z.eqb_spec (Port o) 0) as [P0|P0];
    destruct (Z.eqb_spec (DefaultDevPort o) 0) as [D0|D0];
    destruct (String.eqb_spec (LetsEncryptEmail o) EmptyString) as [E|E];
    destruct (String.eqb_spec (LetsEncryptCacheDir o) EmptyString) as [C|C];
    destruct (Z.eqb_spec (Port o) 80) as [P80|P80]; simpl;
      (split;
       [ try discriminate; intros _; split; intros; try discriminate; tauto
       | intros [H1 H2]; try reflexivity; exfalso;
         try (destruct (H1 eq_refl); contradiction);
         try (destruct (H2 eq_refl) as (H3 & H4 & H5 & [H6|H6]);
              congruence) ]).
Qed.

(** X1: [Verify] succeeds exactly when a port can be resolved (in
    local-development mode the port or the development port is set) and,
    with Let's Encrypt on, the options are not local, the e-mail address
    and the cache directory are given and the port is unset or 80. *)
Theorem Verify_succeeds_iff (o : Options) :
  snd (Verify o) = None <->
  (starts_local o = true -> Port o <> 0 \/ DefaultDevPort o <> 0)
  /\ (LetsEncrypt o = true ->
      starts_local o = false
      /\ LetsEncryptEmail o <> EmptyString
      /\ LetsEncryptCacheDir o <> EmptyString
      /\ (Port o = 0 \/ Port o = 80)).
Proof. exact (Verify_succeeds_iff_core o). Qed.

Lemma Verify_succeeds_iff_witness :
  snd (Verify tls_options) = None /\ snd (Verify tls_8080) <> None.
Proof.
  split.
  - apply (Verify_succeeds_iff tls_options). split.
    + intros H. vm_compute in H. discriminate H.
    + intros _. repeat split; try discriminate. left. reflexivity.
  - intros H. apply (Verify_succeeds_iff tls_8080) in H.
    destruct H as [_ H]. destruct (H eq_refl) as (_ & _ & _ & [P|P]);
      vm_compute in P; discriminate P.
Defined.

(** X2: the missing-host error of the Let's Encrypt block is never
    returned: an empty host puts [Verify] in local-development mode, which
    is rejected first. *)
Theorem Verify_never_reports_missing_host (o : Options) :
  snd (Verify o) <> Some ErrMissingHost.
Proof.
  destruct (Verify_closed_form o) as [-> _]. unfold verify_error.
  repeat match goal with
         | |- context [if ?b then _ else _] => destruct b
         end; discriminate.
Qed.

(** The statement of the next theorem, for use in the proofs below. *)
Lemma Verify_success_record_core (o : Options) :
  snd (Verify o) = None ->
  fst (Verify o) = verified o
  /\ Port (fst (Verify o)) <> 0
  /\ Host (fst (Verify o)) <> EmptyString
  /\ (IsLocalDevelopmentHost o = true ->
      IsLocalDevelopmentHost (fst (Verify o)) = true).
Proof.
  intros H. destruct (Verify_closed_form o) as [E R].
  rewrite E in H. rewrite (R H). clear R E.
  assert (HP : resolved_port o <> 0).
  { revert H. unfold verify_error, resolved_port.
    destruct (Z.eqb_spec (Port o) 0) as [P0|P0]; [|intros _; exact P0].
    destruct (starts_local o); simpl; [|intros _; discriminate].
    destruct (Z.eqb_spec (DefaultDevPort o) 0); [discriminate | intros _; assumption]. }
  split; [reflexivity|]. split; [exact HP|]. split.
  - unfold verified. simpl.
    destruct (String.eqb (Host o) EmptyString || String.eqb (Host o) "localhost") eqn:Hh.
    + discriminate.
    + apply orb_false_iff in Hh as [Hh _]. apply String.eqb_neq. exact Hh.
  - intros F. unfold verified, starts_local. simpl. rewrite F. apply orb_true_r.
Qed.

(** X3: what a successful [Verify] leaves in the record.  The
    local-development flag is raised when the host is local and is never
    lowered; a zero port becomes the development port in local mode and 80
    otherwise; the scheme is "http" in local mode and "https" otherwise,
    whether Let's Encrypt is on or off; an empty or "localhost" host becomes
    "localhost:<port>"; every other field is as it was. *)
Theorem Verify_success_record (o : Options) :
  snd (Verify o) = None ->
  fst (Verify o) = verified o
  /\ Port (fst (Verify o)) <> 0
  /\ Host (fst (Verify o)) <> EmptyString
  /\ (IsLocalDevelopmentHost o = true ->
      IsLocalDevelopmentHost (fst (Verify o)) = true).
Proof. exact (Verify_success_record_core o). Qed.

Lemma Verify_success_record_witness :
  fst (Verify proxy_options) = verified proxy_options
  /\ PrimaryScheme (fst (Verify proxy_options)) = "https"
  /\ LetsEncrypt proxy_options = false.
Proof.
  destruct (Verify_success_record proxy_options) as (H & _); [reflexivity|].
  split; [exact H|]. rewrite H. split; reflexivity.
Defined.

(** X4: [Verify] is idempotent: on a record it has accepted it succeeds
    again and changes nothing. *)
Theorem Verify_idempotent (o : Options) :
  snd (Verify o) = None ->
  Verify (fst (Verify o)) = (fst (Verify o), None).
Proof.
  intros H.
  destruct (Verify_success_record_core o H) as (R & HP & HH & _).
  pose proof (proj1 (Verify_succeeds_iff_core o) H) as [S1 S2].
  rewrite R in *. clear R.
  (* the facts about the accepted record *)
  assert (HL : starts_local (verified o) = starts_local o).
  { unfold starts_local at 1. unfold verified at 2. simpl.
    unfold verified. simpl.
    destruct (String.eqb (Host o) EmptyString || String.eqb (Host o) "localhost") eqn:Hh.
    - apply local_of_default_host in Hh. unfold starts_local. rewrite Hh.
      simpl. apply orb_true_r.
    - unfold starts_local.
      destruct (is_local_host (Host o)); reflexivity. }
  assert (HR : resolved_port (verified o) = resolved_port o).
  { unfold resolved_port at 1. simpl.
    destruct (Z.eqb_spec (resolved_port o) 0); [contradiction | reflexivity]. }
  assert (HHost : String.eqb (Host (verified o)) EmptyString
                  || String.eqb (Host (verified o)) "localhost" = false).
  { unfold verified. simpl.
    destruct (String.eqb (Host o) EmptyString || String.eqb (Host o) "localhost") eqn:Hh.
    - reflexivity.
    - exact Hh. }
  assert (HV : verified (verified o) = verified o).
  { unfold verified at 1. rewrite HR, HL, HHost. reflexivity. }
  assert (HS : snd (Verify (verified o)) = None).
  { apply Verify_succeeds_iff_core. rewrite HL. split.
    - intros _. left. exact HP.
    - simpl. intros T. destruct (S2 T) as (L & E & C & P).
      repeat split; try assumption.
      right. unfold resolved_port. rewrite L.
      destruct P as [P|P]; rewrite P; reflexivity. }
  destruct (Verify_closed_form (verified o)) as [E R].
  rewrite E in HS. specialize (R HS). rewrite <- E in HS.
  rewrite (surjective_pairing (Verify (verified o))), R, HS, HV. reflexivity.
Qed.

Lemma Verify_idempotent_witness :
  Verify (fst (Verify localhost_3001)) = (fst (Verify localhost_3001), None).
Proof. apply (Verify_idempotent localhost_3001). reflexivity. Defined.

(** The statement of the next theorem, for use in the proofs below. *)
Lemma Verify_then_BaseURL_core (o : Options) :
  snd (Verify o) = None ->
  BaseURL (fst (Verify o))
  = Returns ((if starts_local o then "http://" else "https://")
             ++ Host (fst (Verify o))).
Proof.
  intros H. destruct (Verify_success_record_core o H) as (R & _ & HH & _).
  rewrite R in *. unfold BaseURL.
  rewrite (eqb_false_of_neq _ _ HH).
  unfold verified at 1 2. simpl.
  destruct (starts_local o); reflexivity.
Qed.

(** X5: after a successful [Verify], [BaseURL] does not panic: it returns
    "http://" or "https://", by the local-development mode, followed by the
    host of the record. *)
Theorem Verify_then_BaseURL (o : Options) :
  snd (Verify o) = None ->
  BaseURL (fst (Verify o))
  = Returns ((if starts_local o then "http://" else "https://")
             ++ Host (fst (Verify o))).
Proof. exact (Verify_then_BaseURL_core o). Qed.

Lemma Verify_then_BaseURL_witness :
  BaseURL (fst (Verify tls_options)) = Returns "https://myhost.example.com".
Proof. apply (Verify_then_BaseURL tls_options). reflexivity. Defined.

(** X6: a [Verify] that fails has written neither the host nor the scheme:
    the record still counts as not validated when it did before. *)
Theorem Verify_failure_keeps_host_and_scheme (o : Options) :
  snd (Verify o) <> None ->
  Host (fst (Verify o)) = Host o
  /\ PrimaryScheme (fst (Verify o)) = PrimaryScheme o.
Proof.
  unfold Verify.
  assert (H1 : Host (fst (verify_port (verify_local o))) = Host o)
    by (rewrite verify_port_Host; apply verify_local_Host).
  assert (H2 : PrimaryScheme (fst (verify_port (verify_local o))) = PrimaryScheme o).
  { unfold verify_port, verify_local.
    repeat match goal with
           | |- context [if ?b then _ else _] => destruct b; simpl
           end; reflexivity. }
  destruct (verify_port (verify_local o)) as [o2 [e|]]; simpl in *.
  - intros _. split; assumption.
  - destruct (verify_letsencrypt o2); simpl.
    + intros _. split; assumption.
    + intros N. contradiction N. reflexivity.
Qed.

Lemma Verify_failure_keeps_host_and_scheme_witness :
  Host (fst (Verify tls_localhost_no_port)) = "localhost"
  /\ PrimaryScheme (fst (Verify tls_localhost_no_port)) = EmptyString.
Proof.
  apply (Verify_failure_keeps_host_and_scheme tls_localhost_no_port).
  vm_compute. discriminate.
Defined.

(** ** Start: when it panics, fails or succeeds *)

Lemma BaseURL_set_timeout (d : Z) (o : Options) :
  BaseURL (set_GracefulShutdownTimeout d o) = BaseURL o.
Proof. reflexivity. Qed.

(** The options [Start] works on, once [start_options] has accepted them. *)
Lemma start_options_fields (sopt o : Options) :
  start_options sopt = (o, None) ->
  BaseURL o = BaseURL (if String.eqb (PrimaryScheme sopt) EmptyString
                       then fst (Verify sopt) else sopt)
  /\ Host o = Host (if String.eqb (PrimaryScheme sopt) EmptyString
                    then fst (Verify sopt) else sopt)
  /\ Port o = Port (if String.eqb (PrimaryScheme sopt) EmptyString
                    then fst (Verify sopt) else sopt)
  /\ IsLocalDevelopmentHost o
     = IsLocalDevelopmentHost (if String.eqb (PrimaryScheme sopt) EmptyString
                               then fst (Verify sopt) else sopt)
  /\ LetsEncrypt o = LetsEncrypt sopt
  /\ LetsEncryptCacheDir o = LetsEncryptCacheDir sopt
  /\ LetsEncryptEmail o = LetsEncryptEmail sopt
  /\ (String.eqb (PrimaryScheme sopt) EmptyString = true -> snd (Verify sopt) = None).
Proof.
  unfold start_options.
  destruct (String.eqb (PrimaryScheme sopt) EmptyString).
  - pose proof (Verify_frame sopt) as (FL & _ & FC & FE & _).
    destruct (Verify sopt) as [o1 [e|]]; [discriminate|]. simpl in *.
    rewrite <- FL, <- FC, <- FE.
    destruct (GracefulShutdownTimeout o1 =? 0); intros H; inversion H; subst;
      repeat split; reflexivity.
  - destruct (GracefulShutdownTimeout sopt =? 0); intros H; inversion H; subst;
      repeat split; try reflexivity; discriminate.
Qed.

(** X7: [Start] panics exactly when it is given options that claim to be
    validated (a primary scheme is set) and have no host; the panic is the
    one of [BaseURL].  On options that are not yet validated it never
    panics. *)
Theorem Start_panics_iff (env : Env) (handler : Handler) (sopt : Options) :
  ((exists p, Start env handler sopt = Panics p) <->
   PrimaryScheme sopt <> EmptyString /\ Host sopt = EmptyString)
  /\ (forall p, Start env handler sopt = Panics p -> p = PanicString "missing HOST").
Proof.
  unfold Start.
  destruct (start_options sopt) as [o [e|]] eqn:Ho.
  - (* validation failed: an error is returned *)
    split; [split|]; try (intros [p Hp]; discriminate); try discriminate.
    intros [Hs Hh]. exfalso. revert Ho. unfold start_options.
    rewrite (eqb_false_of_neq _ _ Hs).
    destruct (GracefulShutdownTimeout sopt =? 0); discriminate.
  - destruct (start_options_fields _ _ Ho) as (HB & _ & _ & _ & _ & _ & _ & HV).
    unfold start_server. rewrite HB.
    destruct (String.eqb_spec (PrimaryScheme sopt) EmptyString) as [Hs|Hs].
    + (* validated here: BaseURL returns *)
      rewrite (Verify_then_BaseURL_core sopt (HV eq_refl)).
      split; [split|].
      * intros [p Hp]. exfalso. revert Hp.
        destruct (negb (String.eqb (acmeLetsEncryptURL env) ACMEv2URL)); [discriminate|].
        destruct (LetsEncrypt o); [|discriminate].
        destruct (osStat env (LetsEncryptCacheDir o)) as [c|[|]]; discriminate.
      * intros [N _]. contradiction.
      * intros p.
        destruct (negb (String.eqb (acmeLetsEncryptURL env) ACMEv2URL)); [discriminate|].
        destruct (LetsEncrypt o); [|discriminate].
        destruct (osStat env (LetsEncryptCacheDir o)) as [c|[|]]; discriminate.
    + unfold BaseURL. rewrite (eqb_false_of_neq _ _ Hs).
      destruct (String.eqb_spec (Host sopt) EmptyString) as [Hh|Hh].
      * split; [split|].
        -- intros _. split; assumption.
        -- intros _. eexists. reflexivity.
        -- intros p [= <-]. reflexivity.
      * split; [split|].
        -- intros [p Hp]. exfalso. revert Hp.
           destruct (negb (String.eqb (acmeLetsEncryptURL env) ACMEv2URL)); [discriminate|].
           destruct (LetsEncrypt o); [|discriminate].
           destruct (osStat env (LetsEncryptCacheDir o)) as [c|[|]]; discriminate.
        -- intros [_ E]. contradiction.
        -- intros p.
           destruct (negb (String.eqb (acmeLetsEncryptURL env) ACMEv2URL)); [discriminate|].
           destruct (LetsEncrypt o); [|discriminate].
           destruct (osStat env (LetsEncryptCacheDir o)) as [c|[|]]; discriminate.
Qed.

Lemma Start_panics_iff_witness :
  Start env_ok (CallerHandler 0) (set_PrimaryScheme "https" dev_options)
  = Panics (PanicString "missing HOST").
Proof.
  destruct (Start_panics_iff env_ok (CallerHandler 0)
              (set_PrimaryScheme "https" dev_options)) as [[_ H1] H2].
  destruct H1 as [p Hp]; [split; [discriminate | reflexivity]|].
  rewrite Hp. rewrite (H2 p Hp). reflexivity.
Defined.

(** X8: when the ACME directory of the build is not the Let's Encrypt v2
    one, [Start] starts nothing, whatever the options; validated options
    with a host get the unsupported-build error. *)
Theorem Start_refuses_other_acme_directory (env : Env) (handler : Handler)
    (sopt : Options) :
  acmeLetsEncryptURL env <> ACMEv2URL ->
  (forall srv gs, Start env handler sopt <> Returns (Started srv gs))
  /\ (snd (start_options sopt) = None ->
      Host (fst (start_options sopt)) <> EmptyString ->
      PrimaryScheme (fst (start_options sopt)) <> EmptyString ->
      Start env handler sopt
      = Returns (StartFailed (ErrACMEv2Unsupported (acmeLetsEncryptURL env)))).
Proof.
  intros HA. apply eqb_false_of_neq in HA.
  unfold Start, start_server.
  destruct (start_options sopt) as [o [e|]]; simpl.
  - split; [discriminate|]. discriminate.
  - rewrite HA. simpl. split.
    + intros srv gs. destruct (BaseURL o); discriminate.
    + intros _ Hh Hs. unfold BaseURL.
      rewrite (eqb_false_of_neq _ _ Hs), (eqb_false_of_neq _ _ Hh). reflexivity.
Qed.

Lemma Start_refuses_other_acme_directory_witness :
  Start (mkEnv "https://acme-staging.example/directory" (fun _ => StatInfo true))
        (CallerHandler 0) tls_options
  = Returns (StartFailed (ErrACMEv2Unsupported "https://acme-staging.example/directory")).
Proof.
  apply (Start_refuses_other_acme_directory
           (mkEnv "https://acme-staging.example/directory" (fun _ => StatInfo true))
           (CallerHandler 0) tls_options);
    [vm_compute; discriminate | reflexivity
     | vm_compute; discriminate | vm_compute; discriminate].
Defined.

(** X9: with Let's Encrypt on, [Start] starts nothing unless the cache
    directory exists and is a directory. *)
Theorem Start_tls_needs_cache_directory (env : Env) (handler : Handler)
    (sopt : Options) (srv : Server) (gs : list goroutine) :
  LetsEncrypt sopt = true ->
  Start env handler sopt = Returns (Started srv gs) ->
  osStat env (LetsEncryptCacheDir sopt) = StatInfo true.
Proof.
  intros HL. unfold Start.
  destruct (start_options sopt) as [o [e|]] eqn:Ho; [discriminate|].
  destruct (start_options_fields _ _ Ho) as (_ & _ & _ & _ & FL & FC & _).
  unfold start_server. rewrite FL, FC, HL.
  destruct (BaseURL o); [|discriminate].
  destruct (negb (String.eqb (acmeLetsEncryptURL env) ACMEv2URL)); [discriminate|].
  destruct (osStat env (LetsEncryptCacheDir sopt)) as [c|[|]];
    [discriminate | reflexivity | discriminate].
Qed.

Lemma Start_tls_needs_cache_directory_witness :
  osStat env_ok (LetsEncryptCacheDir tls_options) = StatInfo true.
Proof.
  assert (H : exists srv gs,
             Start env_ok (CallerHandler 0) tls_options = Returns (Started srv gs))
    by (eexists; eexists; vm_compute; reflexivity).
  destruct H as (srv & gs & H).
  exact (Start_tls_needs_cache_directory env_ok (CallerHandler 0) tls_options
           srv gs eq_refl H).
Defined.

(** X10: on options that are not yet validated, [Start] succeeds exactly
    when [Verify] accepts them, the ACME directory is the expected one and,
    with Let's Encrypt on, the cache directory is a directory. *)
Theorem Start_unverified_succeeds_iff (env : Env) (handler : Handler)
    (sopt : Options) :
  PrimaryScheme sopt = EmptyString ->
  ((exists srv gs, Start env handler sopt = Returns (Started srv gs)) <->
   snd (Verify sopt) = None
   /\ acmeLetsEncryptURL env = ACMEv2URL
   /\ (LetsEncrypt sopt = true ->
       osStat env (LetsEncryptCacheDir sopt) = StatInfo true)).
Proof.
  intros Hs. unfold Start.
  destruct (start_options sopt) as [o [e|]] eqn:Ho.
  - split; [intros (srv & gs & H); discriminate|].
    intros (HV & _). exfalso. revert Ho. unfold start_options.
    rewrite Hs. simpl.
    destruct (Verify sopt) as [o1 [e1|]]; simpl in HV; [discriminate|].
    discriminate.
  - destruct (start_options_fields _ _ Ho) as (HB & _ & _ & _ & FL & FC & _ & HV).
    rewrite Hs in HB, HV. simpl in HB. specialize (HV eq_refl).
    unfold start_server. rewrite HB, (Verify_then_BaseURL_core sopt HV), FL, FC.
    destruct (String.eqb_spec (acmeLetsEncryptURL env) ACMEv2URL) as [HA|HA]; simpl.
    + destruct (LetsEncrypt sopt).
      * destruct (osStat env (LetsEncryptCacheDir sopt)) as [c|[|]].
        -- split; [intros (srv & gs & H); discriminate|].
           intros (_ & _ & H). specialize (H eq_refl). discriminate.
        -- split; [intros _; repeat split; assumption|].
           intros _. eexists. eexists. reflexivity.
        -- split; [intros (srv & gs & H); discriminate|].
           intros (_ & _ & H). specialize (H eq_refl). discriminate.
      * split; [intros _; repeat split; try assumption; discriminate|].
        intros _. eexists. eexists. reflexivity.
    + split; [intros (srv & gs & H); discriminate|].
      intros (_ & H & _). contradiction.
Qed.

Lemma Start_unverified_succeeds_iff_witness :
  exists srv gs, Start env_ok (CallerHandler 0) tls_options = Returns (Started srv gs).
Proof.
  apply (Start_unverified_succeeds_iff env_ok (CallerHandler 0) tls_options);
    [reflexivity|].
  split; [reflexivity|]. split; reflexivity.
Defined.

(** The statement of the next theorem, for use in the proofs below. *)
Lemma Start_wiring_core (env : Env) (handler : Handler) (sopt : Options)
    (srv : Server) (gs : list goroutine) :
  Start env handler sopt = Returns (Started srv gs) ->
  exists http,
    httpServer srv = Some http
    /\ Addr http = ":" ++ Itoa (Port (fst (start_options sopt)))
    /\ TLSConfig http = None
    /\ (LetsEncrypt sopt = false ->
        httpsServer srv = None
        /\ ServerHandler http = handler
        /\ gs = [GoListenAndServe http])
    /\ (LetsEncrypt sopt = true ->
        exists https mgr,
          httpsServer srv = Some https
          /\ Addr https = ":https"
          /\ ServerHandler https = handler
          /\ TLSConfig https = Some mgr
          /\ ServerHandler http = ChallengeResponder mgr
          /\ mgrCacheDir mgr = LetsEncryptCacheDir sopt
          /\ mgrEmail mgr = LetsEncryptEmail sopt
          /\ mgrHostWhitelist mgr = Host (fst (start_options sopt))
          /\ gs = [GoListenAndServeTLS https; GoListenAndServe http]).
Proof.
  intros H.
  destruct (Start_ok _ _ _ _ _ H) as (o & Ho & Hs).
  destruct (start_options_fields _ _ Ho) as (_ & _ & _ & _ & FL & FC & FE & _).
  destruct (start_server_ok _ _ _ _ _ Hs) as (base & _ & -> & ->).
  rewrite Ho. simpl. rewrite <- FL, <- FC, <- FE.
  exists (plain_listener handler o). unfold plain_listener, tls_listener. simpl.
  split; [reflexivity|]. split; [reflexivity|]. split; [reflexivity|]. split.
  - intros T. rewrite T. repeat split.
  - intros T. rewrite T.
    eexists. eexists. repeat split.
Qed.

(** X11: how [Start] wires the handlers.  With Let's Encrypt off there is
    no TLS listener and the plain listener serves the caller's handler.
    With Let's Encrypt on the TLS listener on ":https" serves the caller's
    handler with the certificate manager's TLS configuration, the plain
    listener serves only the manager's challenge responder, and the manager
    is bound to the cache directory, the e-mail address and the host of the
    options; the TLS goroutine is started before the plain one. *)
Theorem Start_wiring (env : Env) (handler : Handler) (sopt : Options)
    (srv : Server) (gs : list goroutine) :
  Start env handler sopt = Returns (Started srv gs) ->
  exists http,
    httpServer srv = Some http
    /\ Addr http = ":" ++ Itoa (Port (fst (start_options sopt)))
    /\ TLSConfig http = None
    /\ (LetsEncrypt sopt = false ->
        httpsServer srv = None
        /\ ServerHandler http = handler
        /\ gs = [GoListenAndServe http])
    /\ (LetsEncrypt sopt = true ->
        exists https mgr,
          httpsServer srv = Some https
          /\ Addr https = ":https"
          /\ ServerHandler https = handler
          /\ TLSConfig https = Some mgr
          /\ ServerHandler http = ChallengeResponder mgr
          /\ mgrCacheDir mgr = LetsEncryptCacheDir sopt
          /\ mgrEmail mgr = LetsEncryptEmail sopt
          /\ mgrHostWhitelist mgr = Host (fst (start_options sopt))
          /\ gs = [GoListenAndServeTLS https; GoListenAndServe http]).
Proof. exact (Start_wiring_core env handler sopt srv gs). Qed.

Lemma Start_wiring_witness :
  exists srv gs http,
    Start env_ok (CallerHandler 7) dev_options = Returns (Started srv gs)
    /\ httpServer srv = Some http
    /\ Addr http = ":3001"
    /\ ServerHandler http = CallerHandler 7.
Proof.
  assert (H : exists srv gs,
             Start env_ok (CallerHandler 7) dev_options = Returns (Started srv gs))
    by (eexists; eexists; vm_compute; reflexivity).
  destruct H as (srv & gs & H).
  destruct (Start_wiring _ _ _ _ _ H) as (http & H1 & H2 & _ & H3 & _).
  exists srv, gs, http. repeat split; try assumption.
  apply H3. reflexivity.
Defined.

(** X29: when [Verify] rejects options that are not yet validated,
    [Start] returns that very error and starts nothing, whatever the
    environment: the ACME directory and the cache directory are not looked
    at. *)
Theorem Start_returns_validation_error (env : Env) (handler : Handler)
    (sopt : Options) (e : err) :
  PrimaryScheme sopt = EmptyString ->
  snd (Verify sopt) = Some e ->
  Start env handler sopt = Returns (StartFailed e).
Proof.
  intros Hs HV. unfold Start, start_options. rewrite Hs. cbn.
  destruct (Verify sopt) as [o [e'|]]; cbn in HV; [|discriminate].
  injection HV as ->. reflexivity.
Qed.

Lemma Start_returns_validation_error_witness :
  Start (mkEnv "elsewhere" (fun _ => StatError "no such file")) (CallerHandler 0)
        tls_8080
  = Returns (StartFailed (ErrPortNot80 8080)).
Proof.
  apply (Start_returns_validation_error
           (mkEnv "elsewhere" (fun _ => StatError "no such file")) (CallerHandler 0)
           tls_8080); reflexivity.
Defined.

(** X30: options that already carry a primary scheme are taken as they
    are: [Start] does not validate them again and does not resolve the
    port.  With a host, Let's Encrypt off and the expected ACME directory
    it succeeds whatever the port and the local-development flag hold; the
    base URL is the scheme and the host as given and the plain listener is
    on the port as given, a zero port included. *)
Theorem Start_trusts_validated_options (env : Env) (handler : Handler)
    (sopt : Options) :
  PrimaryScheme sopt <> EmptyString ->
  Host sopt <> EmptyString ->
  LetsEncrypt sopt = false ->
  acmeLetsEncryptURL env = ACMEv2URL ->
  exists srv gs,
    Start env handler sopt = Returns (Started srv gs)
    /\ Server_BaseURL srv = PrimaryScheme sopt ++ "://" ++ Host sopt
    /\ httpServer srv
       = Some (mkHttpServer (":" ++ Itoa (Port sopt)) handler None)
    /\ httpsServer srv = None.
Proof.
  intros Hs Hh Hl Ha.
  unfold Start, start_options. rewrite (eqb_false_of_neq _ _ Hs).
  assert (E : forall o' : Options,
             o' = sopt \/ o' = set_GracefulShutdownTimeout (10 * Second) sopt ->
             exists srv gs,
               start_server env handler o' = Returns (Started srv gs)
               /\ Server_BaseURL srv = PrimaryScheme sopt ++ "://" ++ Host sopt
               /\ httpServer srv
                  = Some (mkHttpServer (":" ++ Itoa (Port sopt)) handler None)
               /\ httpsServer srv = None).
  { intros o' Ho'.
    assert (F : Host o' = Host sopt /\ PrimaryScheme o' = PrimaryScheme sopt
                /\ Port o' = Port sopt /\ LetsEncrypt o' = LetsEncrypt sopt)
      by (destruct Ho' as [->| ->]; repeat split).
    destruct F as (E1 & E2 & E3 & E4).
    unfold start_server, BaseURL.
    rewrite E1, E2, E3, E4, Hl, Ha,
      (eqb_false_of_neq _ _ Hs), (eqb_false_of_neq _ _ Hh), String.eqb_refl.
    cbn. eexists. eexists. split; [reflexivity|]. repeat split. }
  destruct (GracefulShutdownTimeout sopt =? 0); apply E; [right | left]; reflexivity.
Qed.

Lemma Start_trusts_validated_options_witness :
  exists srv gs,
    Start env_ok (CallerHandler 0)
          (set_PrimaryScheme "http" (set_Host "internal" dev_options))
    = Returns (Started srv gs)
    /\ Server_BaseURL srv = "http://internal"
    /\ httpServer srv = Some (mkHttpServer ":0" (CallerHandler 0) None).
Proof.
  destruct (Start_trusts_validated_options env_ok (CallerHandler 0)
              (set_PrimaryScheme "http" (set_Host "internal" dev_options)))
    as (srv & gs & H1 & H2 & H3 & _);
    [discriminate | discriminate | reflexivity | reflexivity |].
  exists srv, gs. repeat split; assumption.
Defined.

(** ** Start: endpoints *)

(** The statement of the next theorem, for use in the proofs below. *)
Lemma Start_endpoints_policy_core (env : Env) (handler : Handler) (sopt : Options)
    (srv : Server) (gs : list goroutine) :
  Start env handler sopt = Returns (Started srv gs) ->
  BaseURL (fst (start_options sopt)) = Returns (Server_BaseURL srv)
  /\ Endpoints srv
     = Server_BaseURL srv
       :: (if negb (IsLocalDevelopmentHost (fst (start_options sopt)))
              && negb (Port (fst (start_options sopt)) =? 80)
           then [("127.0.0.1:" ++ Itoa (Port (fst (start_options sopt))))%string]
           else []).
Proof.
  intros H.
  destruct (Start_ok _ _ _ _ _ H) as (o & Ho & Hs).
  destruct (start_server_ok _ _ _ _ _ Hs) as (base & HB & -> & _).
  rewrite Ho. unfold Endpoints, Server_BaseURL, start_endpoints. simpl.
  split; [exact HB|].
  destruct (negb (IsLocalDevelopmentHost o) && negb (Port o =? 80)); reflexivity.
Qed.

(** X12: the endpoints of every started server are its base URL, followed
    by "127.0.0.1:<port>" exactly when the options are not in
    local-development mode and the port is not 80; Let's Encrypt plays no
    part in it. *)
Theorem Start_endpoints_policy (env : Env) (handler : Handler) (sopt : Options)
    (srv : Server) (gs : list goroutine) :
  Start env handler sopt = Returns (Started srv gs) ->
  BaseURL (fst (start_options sopt)) = Returns (Server_BaseURL srv)
  /\ Endpoints srv
     = Server_BaseURL srv
       :: (if negb (IsLocalDevelopmentHost (fst (start_options sopt)))
              && negb (Port (fst (start_options sopt)) =? 80)
           then [("127.0.0.1:" ++ Itoa (Port (fst (start_options sopt))))%string]
           else []).
Proof. exact (Start_endpoints_policy_core env handler sopt srv gs). Qed.

Lemma Start_endpoints_policy_witness :
  exists srv gs,
    Start env_ok (CallerHandler 0) tls_options = Returns (Started srv gs)
    /\ Endpoints srv = ["https://myhost.example.com"].
Proof.
  assert (H : exists srv gs,
             Start env_ok (CallerHandler 0) tls_options = Returns (Started srv gs))
    by (eexists; eexists; vm_compute; reflexivity).
  destruct H as (srv & gs & H).
  destruct (Start_endpoints_policy _ _ _ _ _ H) as (HB & HE).
  exists srv, gs. split; [exact H|].
  assert (HB' : BaseURL (fst (start_options tls_options))
                = Returns "https://myhost.example.com") by reflexivity.
  rewrite HB' in HB. injection HB as HB.
  rewrite HE, <- HB. reflexivity.
Defined.

(** X13: started with Let's Encrypt on from options that are not yet
    validated, the server listens on ":80" and ":https", its base URL is
    "https://<host>" with the host as the caller gave it, and this is its
    only endpoint. *)
Theorem Start_unverified_tls (env : Env) (handler : Handler) (sopt : Options)
    (srv : Server) (gs : list goroutine) :
  PrimaryScheme sopt = EmptyString ->
  LetsEncrypt sopt = true ->
  Start env handler sopt = Returns (Started srv gs) ->
  Server_BaseURL srv = "https://" ++ Host sopt
  /\ Endpoints srv = [("https://" ++ Host sopt)%string]
  /\ option_map Addr (httpServer srv) = Some ":80"
  /\ option_map Addr (httpsServer srv) = Some ":https".
Proof.
  intros Hs HL H.
  destruct (Start_endpoints_policy_core _ _ _ _ _ H) as (HB & HE).
  destruct (Start_wiring_core _ _ _ _ _ H) as (http & Hh & HA & _ & _ & HT).
  destruct (HT HL) as (https & mgr & Hhs & HAs & _).
  destruct (Start_ok _ _ _ _ _ H) as (o & Ho & _).
  destruct (start_options_fields _ _ Ho) as (FB & FH & FP & FF & _ & _ & _ & HV).
  rewrite Hs in FB, FH, FP, FF, HV. simpl in FB, FH, FP, FF. specialize (HV eq_refl).
  destruct (Verify_success_record_core sopt HV) as (R & _).
  pose proof (proj1 (Verify_succeeds_iff_core sopt) HV) as [_ S2].
  destruct (S2 HL) as (L & _ & _ & P).
  assert (NL : is_local_host (Host sopt) = false).
  { unfold starts_local in L. apply orb_false_iff in L. apply L. }
  destruct (not_local_host _ NL) as [Hne Hnl].
  assert (HP : Port o = 80).
  { rewrite FP, R. unfold verified, resolved_port. simpl. rewrite L.
    destruct P as [P|P]; rewrite P; reflexivity. }
  assert (HH : Host o = Host sopt).
  { rewrite FH, R. unfold verified. simpl. rewrite Hne, Hnl. reflexivity. }
  assert (HU : Server_BaseURL srv = "https://" ++ Host sopt).
  { rewrite Ho in HB. simpl in HB. rewrite FB in HB.
    rewrite (Verify_then_BaseURL_core sopt HV), L in HB.
    rewrite R in HB. unfold verified in HB. simpl in HB.
    rewrite Hne, Hnl in HB. simpl in HB. injection HB as <-. reflexivity. }
  rewrite Ho in HE, HA. simpl in HE, HA. rewrite HP in HE, HA.
  rewrite HE, HU, Hh, Hhs. simpl. rewrite HA, HAs.
  rewrite andb_false_r. repeat split.
Qed.

Lemma Start_unverified_tls_witness :
  exists srv gs,
    Start env_ok (CallerHandler 0) tls_options = Returns (Started srv gs)
    /\ Server_BaseURL srv = "https://myhost.example.com"
    /\ option_map Addr (httpServer srv) = Some ":80".
Proof.
  assert (H : exists srv gs,
             Start env_ok (CallerHandler 0) tls_options = Returns (Started srv gs))
    by (eexists; eexists; vm_compute; reflexivity).
  destruct H as (srv & gs & H).
  destruct (Start_unverified_tls env_ok (CallerHandler 0) tls_options srv gs
              eq_refl eq_refl H) as (H1 & _ & H2 & _).
  exists srv, gs. repeat split; assumption.
Defined.

(** X14: the default development server.  Options with no host, no port,
    Let's Encrypt off and a development port, not yet validated, start a
    single plain listener on ":<devport>" serving the caller's handler, and
    the only endpoint is "http://localhost:<devport>"; the cache directory
    is not looked at. *)
Theorem Start_development_server (env : Env) (handler : Handler) (sopt : Options) :
  PrimaryScheme sopt = EmptyString ->
  Host sopt = EmptyString ->
  Port sopt = 0 ->
  LetsEncrypt sopt = false ->
  DefaultDevPort sopt <> 0 ->
  acmeLetsEncryptURL env = ACMEv2URL ->
  exists srv,
    Start env handler sopt
    = Returns (Started srv
                 [GoListenAndServe
                    (mkHttpServer (":" ++ Itoa (DefaultDevPort sopt)) handler None)])
    /\ httpServer srv
       = Some (mkHttpServer (":" ++ Itoa (DefaultDevPort sopt)) handler None)
    /\ httpsServer srv = None
    /\ Endpoints srv = [("http://localhost:" ++ Itoa (DefaultDevPort sopt))%string].
Proof.
  intros Hs Hh Hp Hl Hd Ha.
  assert (SL : starts_local sopt = true) by (unfold starts_local; rewrite Hh; reflexivity).
  assert (V1 : snd (Verify sopt) = None).
  { apply Verify_succeeds_iff_core. split.
    - intros _. right. exact Hd.
    - rewrite Hl. discriminate. }
  destruct (Verify_success_record_core sopt V1) as (R & _).
  assert (V2 : IsLocalDevelopmentHost (fst (Verify sopt)) = true)
    by (rewrite R; exact SL).
  assert (V3 : PrimaryScheme (fst (Verify sopt)) = "http")
    by (rewrite R; unfold verified; cbn; rewrite SL; reflexivity).
  assert (V4 : Port (fst (Verify sopt)) = DefaultDevPort sopt)
    by (rewrite R; unfold verified, resolved_port; cbn; rewrite SL, Hp; reflexivity).
  assert (V5 : Host (fst (Verify sopt)) = "localhost:" ++ Itoa (DefaultDevPort sopt))
    by (rewrite R; unfold verified, resolved_port; cbn; rewrite SL, Hp, Hh; reflexivity).
  clear R.
  pose proof (Verify_frame sopt) as (FL & FG & _).
  unfold Start, start_options. rewrite Hs.
  rewrite String.eqb_refl.
  destruct (Verify sopt) as [o [e|]];
    cbn [fst snd] in V1, V2, V3, V4, V5, FL; [discriminate|].
  assert (E : forall o' : Options,
             o' = o \/ o' = set_GracefulShutdownTimeout (10 * Second) o ->
             exists srv,
               start_server env handler o'
               = Returns (Started srv
                   [GoListenAndServe
                      (mkHttpServer (":" ++ Itoa (DefaultDevPort sopt)) handler None)])
               /\ httpServer srv
                  = Some (mkHttpServer (":" ++ Itoa (DefaultDevPort sopt)) handler None)
               /\ httpsServer srv = None
               /\ Endpoints srv
                  = [("http://localhost:" ++ Itoa (DefaultDevPort sopt))%string]).
  { intros o' Ho'.
    assert (F : Host o' = Host o /\ PrimaryScheme o' = PrimaryScheme o
                /\ Port o' = Port o /\ LetsEncrypt o' = LetsEncrypt o
                /\ IsLocalDevelopmentHost o' = IsLocalDevelopmentHost o)
      by (destruct Ho' as [->| ->]; repeat split).
    destruct F as (E1 & E2 & E3 & E4 & E5).
    unfold start_server, BaseURL, start_endpoints.
    rewrite E1, E2, E3, E4, E5, V2, V3, V4, V5, FL, Hl, Ha. simpl.
    rewrite ?String.eqb_refl. simpl.
    eexists. split; [reflexivity|]. simpl. repeat split. }
  destruct (GracefulShutdownTimeout o =? 0); apply E; [right | left]; reflexivity.
Qed.

Lemma Start_development_server_witness :
  exists srv,
    Start env_ok (CallerHandler 0) dev_options
    = Returns (Started srv
                 [GoListenAndServe (mkHttpServer ":3001" (CallerHandler 0) None)])
    /\ Endpoints srv = ["http://localhost:3001"].
Proof.
  destruct (Start_development_server env_ok (CallerHandler 0) dev_options)
    as (srv & H1 & _ & _ & H2);
    try reflexivity; [vm_compute; discriminate|].
  exists srv. split; [exact H1 | exact H2].
Defined.

(** ** Wait and the listener goroutines together *)

Lemma first_non_nil_none (es : list error) :
  first_non_nil es = None <-> (forall e, In e es -> e = None).
Proof.
  induction es as [|[e|] es IH]; simpl.
  - split; [intros _ e [] | reflexivity].
  - split; [discriminate|]. intros H. apply (H (Some e)). left. reflexivity.
  - rewrite IH. split.
    + intros H e [<-|Hin]; [reflexivity | apply H; exact Hin].
    + intros H e Hin. apply H. right. exact Hin.
Qed.

Lemma report_clean (r : error) :
  report r = None <-> r = None \/ r = Some ErrServerClosed.
Proof.
  destruct r as [[]|]; simpl; split; intros H;
    try discriminate; try reflexivity;
      try (right; reflexivity); try (left; reflexivity);
        destruct H as [H|H]; discriminate.
Qed.

(** What [Start] leaves in the handle, for the proofs about [Wait]. *)
Lemma Started_handle (env : Env) (handler : Handler) (sopt : Options)
    (srv : Server) (gs : list goroutine) :
  Start env handler sopt = Returns (Started srv gs) ->
  errc srv = make_chan 2
  /\ List.length gs = listener_count srv
  /\ (listener_count srv <= 2)%nat.
Proof.
  intros H.
  destruct (Start_ok _ _ _ _ _ H) as (o & _ & Hs).
  destruct (start_server_ok _ _ _ _ _ Hs) as (base & _ & -> & ->).
  unfold listener_count. simpl.
  destruct (LetsEncrypt o); simpl; repeat split; lia.
Qed.

(** X15: [Start], the listener goroutines and [Wait] together.  Once every
    started listener has returned, with any results, all reports sit in the
    channel, and [Wait] returns without blocking with the first result that
    is neither nil nor [http.ErrServerClosed], leaving the channel empty; it
    returns nil exactly when every listener ended with nil or
    [http.ErrServerClosed]. *)
Theorem Wait_after_all_reports (env : Env) (handler : Handler) (sopt : Options)
    (srv : Server) (gs : list goroutine) (results : list error) :
  Start env handler sopt = Returns (Started srv gs) ->
  List.length results = List.length gs ->
  exists c,
    send_all (errc srv) (map report results) = Some c
    /\ Wait srv (chanBuf c) = Some (first_non_nil (map report results), [])
    /\ (first_non_nil (map report results) = None <->
        forall r, In r results -> r = None \/ r = Some ErrServerClosed).
Proof.
  intros H Hlen.
  destruct (Started_handle _ _ _ _ _ H) as (Hc & Hn & Hle).
  rewrite Hc.
  exists (mkChan 2 (map report results)). split; [|split].
  - rewrite send_all_fits; [reflexivity|].
    simpl. rewrite length_map. lia.
  - simpl.
    destruct (Wait_spec srv (map report results)) as [W _].
    rewrite W by (rewrite length_map; lia).
    rewrite firstn_all2, skipn_all2 by (rewrite length_map; lia). reflexivity.
  - rewrite first_non_nil_none. split.
    + intros A r Hin. apply report_clean. apply A. apply in_map. exact Hin.
    + intros A e Hin. apply in_map_iff in Hin as (r & <- & Hin).
      apply report_clean. apply A. exact Hin.
Qed.

Lemma Wait_after_all_reports_witness :
  exists srv gs c,
    Start env_ok (CallerHandler 0) tls_options = Returns (Started srv gs)
    /\ send_all (errc srv) (map report [Some ErrServerClosed; Some ErrServerClosed])
       = Some c
    /\ Wait srv (chanBuf c) = Some (None, []).
Proof.
  assert (H : exists srv gs,
             Start env_ok (CallerHandler 0) tls_options = Returns (Started srv gs))
    by (eexists; eexists; vm_compute; reflexivity).
  destruct H as (srv & gs & H).
  assert (L : List.length gs = 2%nat).
  { vm_compute in H. injection H as _ <-. reflexivity. }
  destruct (Wait_after_all_reports _ _ _ _ _
              [Some ErrServerClosed; Some ErrServerClosed] H)
    as (c & H1 & H2 & _); [rewrite L; reflexivity|].
  exists srv, gs, c. repeat split; assumption.
Defined.

(** X16: [Wait] never returns [http.ErrServerClosed] when the completions
    are the reports of listener goroutines: an intentional shutdown is
    never surfaced as an error. *)
Theorem Wait_never_returns_ErrServerClosed (srv : Server) (results : list error)
    (e : error) (rest : list error) :
  Wait srv (map report results) = Some (e, rest) ->
  e <> Some ErrServerClosed.
Proof.
  assert (R : forall r, report r <> Some ErrServerClosed)
    by (intros [[]|]; discriminate).
  unfold Wait, wait_recv.
  destruct (httpServer srv), (httpsServer srv); simpl;
    destruct results as [|r1 [|r2 results]]; simpl;
      try discriminate; intros [= <- _];
        try discriminate; try apply R;
          destruct (report r1) eqn:E1; try apply R;
            rewrite <- E1; apply R.
Qed.

Lemma Wait_never_returns_ErrServerClosed_witness :
  Some (ErrOther "accept failed") <> Some ErrServerClosed.
Proof.
  apply (Wait_never_returns_ErrServerClosed
           (mkServer (Some (mkHttpServer ":80" (CallerHandler 0) None)) None
                     (make_chan 2) 0 None "http://h" ["http://h"])
           [Some (ErrOther "accept failed")] _ []).
  reflexivity.
Defined.

(** X17: given enough completions, [Wait] on a started server returns nil
    exactly when every completion it consumed is nil: one failed listener
    is enough for a non-nil result, in whatever order the completions
    arrive. *)
Theorem Wait_returns_nil_iff (env : Env) (handler : Handler) (sopt : Options)
    (srv : Server) (gs : list goroutine) (arrivals : list error) :
  Start env handler sopt = Returns (Started srv gs) ->
  (List.length gs <= List.length arrivals)%nat ->
  ((exists rest, Wait srv arrivals = Some (None, rest)) <->
   forall e, In e (firstn (List.length gs) arrivals) -> e = None).
Proof.
  intros H Hlen.
  destruct (Started_handle _ _ _ _ _ H) as (_ & Hn & _).
  destruct (Wait_spec srv arrivals) as [W _].
  rewrite W by lia. rewrite Hn, <- first_non_nil_none. split.
  - intros (rest & [= E _]). exact E.
  - intros E. rewrite E. eexists. reflexivity.
Qed.

Lemma Wait_returns_nil_iff_witness :
  exists srv gs rest,
    Start env_ok (CallerHandler 0) dev_options = Returns (Started srv gs)
    /\ Wait srv [None; Some (ErrOther "late")] = Some (None, rest).
Proof.
  assert (H : exists srv gs,
             Start env_ok (CallerHandler 0) dev_options = Returns (Started srv gs))
    by (eexists; eexists; vm_compute; reflexivity).
  destruct H as (srv & gs & H).
  assert (L : List.length gs = 1%nat).
  { vm_compute in H. injection H as _ <-. reflexivity. }
  destruct (proj2 (Wait_returns_nil_iff _ _ _ _ _ [None; Some (ErrOther "late")] H
                     ltac:(rewrite L; simpl; lia))) as (rest & HW).
  - rewrite L. simpl. intros e [<-|[]]. reflexivity.
  - exists srv, gs, rest. split; assumption.
Defined.

(** ** Shutdown of a started server *)

(** X18: [Shutdown] of a started server, for any results of the two
    [http.Server.Shutdown] calls.  Both listeners are asked to shut down
    with the same deadline, the plain one first, also when the first call
    fails; the context is cancelled; both listeners are closed.  The error
    of the plain listener takes precedence over the one of the TLS
    listener.  With no error or a deadline-exceeded error [Shutdown]
    returns, with any other error it panics after the listeners are closed.
    Nothing is logged, not even on a timeout, since [Start] leaves the log
    function of the handle unset. *)
Theorem Shutdown_started_trace (env : Env) (handler : Handler) (sopt : Options)
    (srv : Server) (gs : list goroutine) (result : string -> error) (t : trace) :
  Start env handler sopt = Returns (Started srv gs) ->
  let ctx := mkContext (gracefulShutdownTimeout srv) in
  let plain := ":" ++ Itoa (Port (fst (start_options sopt))) in
  let tls := LetsEncrypt sopt in
  let err := match result plain with
             | Some e => Some e
             | None => if tls then result ":https" else None
             end in
  Shutdown result srv t
  = (match err with
     | None | Some DeadlineExceeded => Returns tt
     | Some e => Panics (PanicError e)
     end,
     (t ++ [EvShutdown plain ctx]
        ++ (if tls then [EvShutdown ":https" ctx] else [])
        ++ [EvCancel ctx; EvClose plain]
        ++ (if tls then [EvClose ":https"] else []))%list).
Proof.
  intros H.
  destruct (Start_ok _ _ _ _ _ H) as (o & Ho & Hs).
  destruct (start_options_ok _ _ Ho) as (HL & _).
  destruct (start_server_ok _ _ _ _ _ Hs) as (base & _ & -> & _).
  rewrite Ho, <- HL. unfold plain_listener, tls_listener. cbn [fst].
  remember (":" ++ Itoa (Port o)) as plain eqn:Ep. clear Ep.
  unfold Shutdown, gracefulShutdown, defer, bind, http_Shutdown, http_Close,
    Server_Log, emit, ret, panic.
  cbn [httpServer httpsServer gracefulShutdownTimeout log Addr].
  destruct (LetsEncrypt o); cbn [Addr].
  - destruct (result plain) as [e1|];
      [destruct e1 | destruct (result ":https") as [[]|]];
      cbn; rewrite <- !app_assoc; reflexivity.
  - destruct (result plain) as [[]|]; cbn; rewrite <- !app_assoc; reflexivity.
Qed.

Lemma Shutdown_started_trace_witness :
  exists srv gs,
    Start env_ok (CallerHandler 0) tls_options = Returns (Started srv gs)
    /\ Shutdown (fun addr => if String.eqb addr ":https"
                             then Some DeadlineExceeded else None) srv []
       = (Returns tt,
          [EvShutdown ":80" (mkContext 2000000000);
           EvShutdown ":https" (mkContext 2000000000);
           EvCancel (mkContext 2000000000);
           EvClose ":80"; EvClose ":https"]).
Proof.
  assert (H : exists srv gs,
             Start env_ok (CallerHandler 0) tls_options = Returns (Started srv gs))
    by (eexists; eexists; vm_compute; reflexivity).
  destruct H as (srv & gs & H).
  exists srv, gs. split; [exact H|].
  rewrite (Shutdown_started_trace _ _ _ _ _
             (fun addr => if String.eqb addr ":https"
                          then Some DeadlineExceeded else None) [] H).
  assert (T : gracefulShutdownTimeout srv = 2000000000).
  { vm_compute in H. injection H as <- _. reflexivity. }
  rewrite T. reflexivity.
Defined.

(** X20: panics around [gracefulShutdown].  A panic of the graceful step is
    passed on after the context was cancelled and the forceful step ran; a
    panic of the forceful step replaces whatever the coordinator was about
    to do, a normal return as well as a pending panic. *)
Theorem gracefulShutdown_panics (period : Z) (t : trace) (p q : panic_value) :
  let ctx := mkContext period in
  gracefulShutdown probe_log period (probe_graceful (Panics p)) probe_forceful t
  = (Panics p, (t ++ [EvGraceful ctx; EvCancel ctx; EvForceful])%list)
  /\ (forall r,
        fst (gracefulShutdown probe_log period (probe_graceful r)
               (_ <- probe_forceful ;; panic q) t)
        = Panics q).
Proof.
  unfold gracefulShutdown, defer, bind, probe_graceful, probe_forceful, probe_log,
    emit, panic, ret. simpl. split.
  - rewrite <- !app_assoc. reflexivity.
  - intros [[[]|]|p']; reflexivity.
Qed.

(** ** Reading numbers and booleans *)

Lemma max_uint64_value : max_uint64 = 18446744073709551615.
Proof. reflexivity. Qed.

Lemma parse_uint_digit (c : ascii) (rest : string) (n d : Z) :
  digit_value c = Some d ->
  0 <= d <= 9 ->
  0 <= n ->
  n * 10 + d <= max_uint64 ->
  parse_uint (String c rest) n = parse_uint rest (n * 10 + d).
Proof.
  intros Hc Hd Hn Hm. cbn [parse_uint]. rewrite Hc.
  rewrite max_uint64_value in *.
  change (18446744073709551615 / 10 + 1) with 1844674407370955162.
  rewrite Z.geb_leb, Z.gtb_ltb.
  destruct (Z.leb_spec 1844674407370955162 n); [lia|].
  destruct (Z.ltb_spec 18446744073709551615 (n * 10 + d)); [lia|].
  reflexivity.
Qed.

Lemma of_uint_acc_ge (d : Decimal.uint) :
  forall acc, (acc <= Pos.of_uint_acc d acc)%positive.
Proof.
  induction d; intros acc; cbn [Pos.of_uint_acc];
    try (etransitivity; [|apply IHd]); lia.
Qed.

Ltac bound_lia := rewrite ?max_uint64_value in *; lia.

Ltac read_digit :=
  erewrite parse_uint_digit; cycle 1;
  [cbv; reflexivity | lia | lia | bound_lia | try reflexivity; try (f_equal; lia)].

Lemma parse_uint_acc (d : Decimal.uint) :
  forall acc,
    Zpos (Pos.of_uint_acc d acc) <= max_uint64 ->
    parse_uint (NilEmpty.string_of_uint d) (Zpos acc)
    = inl (Zpos (Pos.of_uint_acc d acc)).
Proof.
  induction d; intros acc H; cbn [Pos.of_uint_acc NilEmpty.string_of_uint] in *;
    [reflexivity | ..];
    match goal with
    | H : Zpos (Pos.of_uint_acc d ?a) <= _ |- _ =>
        pose proof (of_uint_acc_ge d a) as G; rewrite <- (IHd a H); read_digit
    end.
Qed.

Lemma parse_uint_zero (d : Decimal.uint) :
  Z.of_N (Pos.of_uint d) <= max_uint64 ->
  parse_uint (NilEmpty.string_of_uint d) 0 = inl (Z.of_N (Pos.of_uint d)).
Proof.
  induction d; intros H; cbn [Pos.of_uint NilEmpty.string_of_uint Z.of_N] in *;
    [reflexivity | rewrite <- (IHd H); read_digit | ..];
    match goal with
    | H : Zpos (Pos.of_uint_acc d ?a) <= _ |- _ =>
        pose proof (of_uint_acc_ge d a) as G;
        rewrite <- (parse_uint_acc d a H); read_digit
    end.
Qed.

Lemma to_uint_string (p : positive) :
  exists c rest,
    NilZero.string_of_uint (Pos.to_uint p) = String c rest
    /\ NilEmpty.string_of_uint (Pos.to_uint p) = String c rest
    /\ Ascii.eqb c "+" = false /\ Ascii.eqb c "-" = false.
Proof.
  pose proof (DecimalPos.Unsigned.to_uint_nonnil p) as N.
  destruct (Pos.to_uint p); [contradiction | ..];
    eexists; eexists; repeat split.
Qed.

(** [strconv.Itoa] and [strconv.Atoi] round trip on the range of [int]. *)
Lemma Atoi_Itoa (n : Z) :
  min_int <= n <= max_int -> Atoi (Itoa n) = inl n.
Proof.
  unfold min_int, max_int. intros Hn.
  destruct n as [|p|p]; [reflexivity | |]; unfold Itoa; cbn [Z.to_int NilZero.string_of_int].
  - destruct (to_uint_string p) as (c & rest & E1 & E2 & C1 & C2).
    pose proof (parse_uint_zero (Pos.to_uint p)) as P.
    rewrite DecimalPos.Unsigned.of_to, E2 in P. cbn [Z.of_N] in P.
    rewrite E1. unfold Atoi. rewrite C1, C2. cbn [orb].
    rewrite P by bound_lia.
    rewrite Z.geb_leb. destruct (Z.leb_spec (2 ^ 63) (Z.pos p)); [lia | reflexivity].
  - destruct (to_uint_string p) as (c & rest & E1 & E2 & C1 & C2).
    pose proof (parse_uint_zero (Pos.to_uint p)) as P.
    rewrite DecimalPos.Unsigned.of_to, E2 in P. cbn [Z.of_N] in P.
    rewrite E1. unfold Atoi.
    change (Ascii.eqb "-" "+") with false. change (Ascii.eqb "-" "-") with true.
    cbn [orb]. rewrite P by bound_lia.
    rewrite Z.gtb_ltb. destruct (Z.ltb_spec (2 ^ 63) (Z.pos p)); [lia | reflexivity].
Qed.

Lemma digit_value_range (c : ascii) (d : Z) : digit_value c = Some d -> 0 <= d <= 9.
Proof.
  unfold digit_value.
  destruct (Z.leb_spec 48 (Z.of_nat (nat_of_ascii c)));
    destruct (Z.leb_spec (Z.of_nat (nat_of_ascii c)) 57); cbn;
      try discriminate; intros [= <-]; lia.
Qed.

Lemma parse_uint_grows (s : string) :
  forall n m, 0 <= n -> parse_uint s n = inl m -> n <= m.
Proof.
  induction s as [|c s IH]; intros n m Hn; cbn [parse_uint].
  - intros [= <-]. lia.
  - destruct (digit_value c) as [d|] eqn:D; [|discriminate].
    apply digit_value_range in D.
    destruct (n >=? max_uint64 / 10 + 1); [discriminate|].
    destruct (n * 10 + d >? max_uint64); [discriminate|].
    intros H. apply IH in H; lia.
Qed.

Lemma parse_uint_digits (s : string) :
  forall n m, parse_uint s n = inl m ->
              Forall (fun c => digit_value c <> None) (list_ascii_of_string s).
Proof.
  induction s as [|c s IH]; intros n m; cbn [parse_uint list_ascii_of_string].
  - intros _. constructor.
  - destruct (digit_value c) as [d|] eqn:D; [|discriminate].
    destruct (n >=? max_uint64 / 10 + 1); [discriminate|].
    destruct (n * 10 + d >? max_uint64); [discriminate|].
    intros H. constructor; [rewrite D; discriminate | exact (IH _ _ H)].
Qed.

(** What [Atoi] accepts is an optional sign followed by at least one byte,
    all of them decimal digits, and the number is in the range of [int]. *)
Lemma Atoi_accepts (s : string) (n : Z) :
  Atoi s = inl n ->
  min_int <= n <= max_int
  /\ exists digits,
      (s = digits \/ s = String "+" digits \/ s = String "-" digits)
      /\ digits <> EmptyString
      /\ Forall (fun c => digit_value c <> None) (list_ascii_of_string digits).
Proof.
  unfold Atoi, min_int, max_int.
  destruct s as [|c rest]; [discriminate|].
  destruct (Ascii.eqb_spec c "+") as [->|Np].
  - cbn [orb]. change (Ascii.eqb "+" "-") with false. cbn iota.
    destruct rest as [|c' rest']; [discriminate|].
    destruct (parse_uint (String c' rest') 0) as [un|e] eqn:P; [|discriminate].
    pose proof (parse_uint_digits _ _ _ P) as D.
    apply parse_uint_grows in P; [|lia].
    rewrite Z.geb_leb. destruct (Z.leb_spec (2 ^ 63) un); [discriminate|].
    intros [= <-]. split; [lia|].
    exists (String c' rest'). split; [right; left; reflexivity|].
    split; [discriminate | exact D].
  - destruct (Ascii.eqb_spec c "-") as [->|Nm].
    + cbn [orb]. cbn iota.
      destruct rest as [|c' rest']; [discriminate|].
      destruct (parse_uint (String c' rest') 0) as [un|e] eqn:P; [|discriminate].
      pose proof (parse_uint_digits _ _ _ P) as D.
      apply parse_uint_grows in P; [|lia].
      rewrite Z.gtb_ltb. destruct (Z.ltb_spec (2 ^ 63) un); [discriminate|].
      intros [= <-]. split; [lia|].
      exists (String c' rest'). split; [right; right; reflexivity|].
      split; [discriminate | exact D].
    + cbn [orb]. cbn iota.
      destruct (parse_uint (String c rest) 0) as [un|e] eqn:P; [|discriminate].
      pose proof (parse_uint_digits _ _ _ P) as D.
      apply parse_uint_grows in P; [|lia].
      rewrite Z.geb_leb. destruct (Z.leb_spec (2 ^ 63) un); [discriminate|].
      intros [= <-]. split; [lia|].
      exists (String c rest). split; [left; reflexivity|].
      split; [discriminate | exact D].
Qed.

Lemma one_of_In (s : string) (values : list string) :
  one_of s values = true <-> In s values.
Proof.
  unfold one_of. rewrite existsb_exists. split.
  - intros (v & Hin & E). apply String.eqb_eq in E. subst. exact Hin.
  - intros Hin. exists s. split; [exact Hin | apply String.eqb_refl].
Qed.

Lemma lower_byte_idempotent (c : ascii) : lower_byte (lower_byte c) = lower_byte c.
Proof. destruct c as [[|] [|] [|] [|] [|] [|] [|] [|]]; reflexivity. Qed.

Lemma ToLower_idempotent (s : string) : ToLower (ToLower s) = ToLower s.
Proof.
  induction s as [|c s IH]; cbn [ToLower]; [reflexivity|].
  rewrite lower_byte_idempotent, IH. reflexivity.
Qed.

Lemma ToLower_length (s : string) : String.length (ToLower s) = String.length s.
Proof. induction s as [|c s IH]; cbn; [reflexivity | rewrite IH; reflexivity]. Qed.

(** The statement of the next theorem, for use in the proofs below. *)
Lemma parseBool_table_core (s : string) :
  (snd (parseBool s) = true <-> In (ToLower s) (true_words ++ false_words)%list)
  /\ (fst (parseBool s) = true <-> In (ToLower s) true_words)
  /\ (fst (parseBool s) = true -> snd (parseBool s) = true)
  /\ parseBool (ToLower s) = parseBool s
  /\ (snd (parseBool s) = true -> (1 <= String.length s <= 5)%nat).
Proof.
  assert (D : forall l, In l true_words -> In l false_words -> False).
  { intros l Ht Hf. cbn in Ht, Hf.
    repeat match goal with
           | H : _ \/ _ |- _ => destruct H
           | H : False |- _ => destruct H
           end; subst; discriminate. }
  assert (Len : forall l, In l (true_words ++ false_words)%list ->
                          (1 <= String.length l <= 5)%nat).
  { intros l Hin. cbn in Hin.
    repeat match goal with
           | H : _ \/ _ |- _ => destruct H
           | H : False |- _ => destruct H
           end; subst; cbn; lia. }
  assert (A : snd (parseBool s) = true <-> In (ToLower s) (true_words ++ false_words)%list).
  { unfold parseBool. rewrite in_app_iff, <- !one_of_In.
    destruct (one_of (ToLower s) true_words), (one_of (ToLower s) false_words);
      cbn; intuition discriminate. }
  assert (B : fst (parseBool s) = true <-> In (ToLower s) true_words).
  { unfold parseBool. rewrite <- one_of_In.
    destruct (one_of (ToLower s) true_words), (one_of (ToLower s) false_words);
      cbn; intuition discriminate. }
  split; [exact A|]. split; [exact B|]. split; [|split].
  - intros H. apply A. apply in_app_iff. left. apply B. exact H.
  - unfold parseBool. rewrite ToLower_idempotent. reflexivity.
  - intros H. rewrite <- ToLower_length. apply Len. apply A. exact H.
Qed.

(** X23: [parseBool].  A string is accepted exactly when its lower-case
    form is one of the twelve words, and the value is true exactly for the
    six affirmative ones, so the value is never true for a rejected string;
    letter case does not matter; an accepted string has one to five
    bytes. *)
Theorem parseBool_table (s : string) :
  (snd (parseBool s) = true <-> In (ToLower s) (true_words ++ false_words)%list)
  /\ (fst (parseBool s) = true <-> In (ToLower s) true_words)
  /\ (fst (parseBool s) = true -> snd (parseBool s) = true)
  /\ parseBool (ToLower s) = parseBool s
  /\ (snd (parseBool s) = true -> (1 <= String.length s <= 5)%nat).
Proof. exact (parseBool_table_core s). Qed.

Lemma parseBool_table_witness :
  snd (parseBool "YES") = true /\ (1 <= String.length "YES" <= 5)%nat.
Proof.
  destruct (parseBool_table "YES") as (_ & B & C & _ & E).
  assert (H : snd (parseBool "YES") = true).
  { apply C. apply B. cbn. right. right. left. reflexivity. }
  split; [exact H | exact (E H)].
Defined.

(** ** LoadEnv *)

Ltac load_cases getenv :=
  unfold LoadEnv, load_port, load_host, load_email, load_cache_dir, load_enabled;
  destruct (String.eqb_spec (getenv "PORT") EmptyString) as [EP|EP];
  [|destruct (Atoi (getenv "PORT")) as [port|perr] eqn:AP];
  (destruct (String.eqb_spec (getenv "HOST") EmptyString) as [EH|EH];
   [|destruct (host_has_schema (getenv "HOST")) eqn:SH]);
  (destruct (String.eqb_spec (getenv "LETSENCRYPT_EMAIL") EmptyString) as [EM|EM];
   [|destruct (Contains (getenv "LETSENCRYPT_EMAIL") "@") eqn:CM]);
  destruct (String.eqb_spec (getenv "LETSENCRYPT_CACHE_DIR") EmptyString) as [EC|EC];
  (destruct (String.eqb_spec (getenv "LETSENCRYPT_ENABLED") EmptyString) as [EE|EE];
   [|destruct (parseBool (getenv "LETSENCRYPT_ENABLED")) as [v [|]] eqn:PB]);
  cbn.

(** X24: what [LoadEnv] leaves alone, whether it fails or not: the
    application settings and the derived settings always, and each
    environment setting whose variable is unset or empty; with all five
    variables unset the record is unchanged and there is no error. *)
Theorem LoadEnv_frame (getenv : string -> string) (o : Options) :
  Log (fst (LoadEnv getenv o)) = Log o
  /\ DefaultDevPort (fst (LoadEnv getenv o)) = DefaultDevPort o
  /\ GracefulShutdownTimeout (fst (LoadEnv getenv o)) = GracefulShutdownTimeout o
  /\ IsLocalDevelopmentHost (fst (LoadEnv getenv o)) = IsLocalDevelopmentHost o
  /\ PrimaryScheme (fst (LoadEnv getenv o)) = PrimaryScheme o
  /\ (getenv "PORT" = EmptyString -> Port (fst (LoadEnv getenv o)) = Port o)
  /\ (getenv "HOST" = EmptyString -> Host (fst (LoadEnv getenv o)) = Host o)
  /\ (getenv "LETSENCRYPT_EMAIL" = EmptyString ->
      LetsEncryptEmail (fst (LoadEnv getenv o)) = LetsEncryptEmail o)
  /\ (getenv "LETSENCRYPT_CACHE_DIR" = EmptyString ->
      LetsEncryptCacheDir (fst (LoadEnv getenv o)) = LetsEncryptCacheDir o)
  /\ (getenv "LETSENCRYPT_ENABLED" = EmptyString ->
      LetsEncrypt (fst (LoadEnv getenv o)) = LetsEncrypt o)
  /\ (getenv "PORT" = EmptyString -> getenv "HOST" = EmptyString ->
      getenv "LETSENCRYPT_EMAIL" = EmptyString ->
      getenv "LETSENCRYPT_CACHE_DIR" = EmptyString ->
      getenv "LETSENCRYPT_ENABLED" = EmptyString ->
      LoadEnv getenv o = (o, None)).
Proof.
  load_cases getenv; repeat split; intros; try reflexivity; try contradiction;
    destruct o; reflexivity.
Qed.

Lemma LoadEnv_frame_witness :
  LoadEnv (getenv_of []) tls_options = (tls_options, None)
  /\ Host (fst (LoadEnv (getenv_of [("PORT", "8080")]) tls_options))
     = "myhost.example.com".
Proof.
  split.
  - apply (LoadEnv_frame (getenv_of []) tls_options); reflexivity.
  - apply (LoadEnv_frame (getenv_of [("PORT", "8080")]) tls_options). reflexivity.
Defined.

(** X25: [LoadEnv] succeeds exactly when every variable that is set is
    well formed: PORT is a number, HOST has no "//" and does not start
    with "http:" or "https:", LETSENCRYPT_EMAIL contains "@", and
    LETSENCRYPT_ENABLED is one of the boolean words.  The record it starts
    from plays no part. *)
Theorem LoadEnv_succeeds_iff (getenv : string -> string) (o : Options) :
  snd (LoadEnv getenv o) = None <->
  (getenv "PORT" = EmptyString \/ exists n, Atoi (getenv "PORT") = inl n)
  /\ (getenv "HOST" = EmptyString
      \/ (Contains (getenv "HOST") "//" = false
          /\ HasPrefix (getenv "HOST") "http:" = false
          /\ HasPrefix (getenv "HOST") "https:" = false))
  /\ (getenv "LETSENCRYPT_EMAIL" = EmptyString
      \/ Contains (getenv "LETSENCRYPT_EMAIL") "@" = true)
  /\ (getenv "LETSENCRYPT_ENABLED" = EmptyString
      \/ snd (parseBool (getenv "LETSENCRYPT_ENABLED")) = true).
Proof.
  assert (S : forall h, host_has_schema h = false <->
                        Contains h "//" = false /\ HasPrefix h "http:" = false
                        /\ HasPrefix h "https:" = false).
  { intros h. unfold host_has_schema. rewrite !orb_false_iff. tauto. }
  rewrite <- S.
  load_cases getenv;
    (split;
     [ try discriminate; intros _; repeat split;
       first [left; assumption | right; first [eexists; reflexivity | reflexivity]]
     | intros (H1 & H2 & H3 & H4); try reflexivity; exfalso;
       repeat match goal with
              | H : _ \/ _ |- _ => destruct H
              | H : exists _, _ |- _ => destruct H
              end; try contradiction; try congruence; cbn in *; congruence ]).
Qed.

(** X26: what a successful [LoadEnv] has stored: for every variable that
    is set, the field holds the value read; the stored port is the number
    PORT spells, the stored host has no schema, the stored e-mail address
    contains "@", and the Let's Encrypt flag is the value of the boolean
    word. *)
Theorem LoadEnv_success_fields (getenv : string -> string) (o : Options) :
  snd (LoadEnv getenv o) = None ->
  (getenv "PORT" <> EmptyString ->
   Atoi (getenv "PORT") = inl (Port (fst (LoadEnv getenv o))))
  /\ (getenv "HOST" <> EmptyString ->
      Host (fst (LoadEnv getenv o)) = getenv "HOST"
      /\ host_has_schema (getenv "HOST") = false)
  /\ (getenv "LETSENCRYPT_EMAIL" <> EmptyString ->
      LetsEncryptEmail (fst (LoadEnv getenv o)) = getenv "LETSENCRYPT_EMAIL"
      /\ Contains (getenv "LETSENCRYPT_EMAIL") "@" = true)
  /\ (getenv "LETSENCRYPT_CACHE_DIR" <> EmptyString ->
      LetsEncryptCacheDir (fst (LoadEnv getenv o)) = getenv "LETSENCRYPT_CACHE_DIR")
  /\ (getenv "LETSENCRYPT_ENABLED" <> EmptyString ->
      parseBool (getenv "LETSENCRYPT_ENABLED")
      = (LetsEncrypt (fst (LoadEnv getenv o)), true)).
Proof.
  load_cases getenv; intros H; try discriminate H;
    repeat split; intros; try contradiction; try reflexivity; try assumption.
Qed.

Lemma LoadEnv_success_fields_witness :
  Atoi "8080"
  = inl (Port (fst (LoadEnv (getenv_of [("PORT", "8080"); ("HOST", "example.org")])
                      dev_options)))
  /\ Host (fst (LoadEnv (getenv_of [("PORT", "8080"); ("HOST", "example.org")])
                  dev_options)) = "example.org".
Proof.
  destruct (LoadEnv_success_fields
              (getenv_of [("PORT", "8080"); ("HOST", "example.org")]) dev_options)
    as (H1 & H2 & _); [reflexivity|].
  split.
  - apply H1. discriminate.
  - apply H2. discriminate.
Defined.

(** X27: [LoadEnv] handles the variables in the order PORT, HOST,
    LETSENCRYPT_EMAIL, LETSENCRYPT_CACHE_DIR, LETSENCRYPT_ENABLED, stops at
    the first one that is malformed, whatever the later ones hold, and
    keeps what it has stored before.  A bad PORT leaves the record
    untouched; a bad HOST leaves the port stored; a bad e-mail address
    leaves the port and the host stored, and the cache directory not yet;
    a bad boolean leaves all four other settings stored; with no malformed
    variable all five are stored and there is no error. *)
Theorem LoadEnv_stops_at_first_error (getenv : string -> string) (o : Options) :
  (forall e,
      getenv "PORT" <> EmptyString ->
      Atoi (getenv "PORT") = inr e ->
      LoadEnv getenv o = (o, Some (ErrInvalidPort (getenv "PORT") e)))
  /\ (forall o1,
        port_stored getenv o o1 ->
        getenv "HOST" <> EmptyString ->
        host_has_schema (getenv "HOST") = true ->
        LoadEnv getenv o = (o1, Some (ErrInvalidHost (getenv "HOST"))))
  /\ (forall o1 o2,
        port_stored getenv o o1 ->
        host_stored getenv o1 o2 ->
        getenv "LETSENCRYPT_EMAIL" <> EmptyString ->
        Contains (getenv "LETSENCRYPT_EMAIL") "@" = false ->
        LoadEnv getenv o
        = (o2, Some (ErrInvalidEmail (getenv "LETSENCRYPT_EMAIL"))))
  /\ (forall o1 o2 o3 o4,
        port_stored getenv o o1 ->
        host_stored getenv o1 o2 ->
        email_stored getenv o2 o3 ->
        cache_dir_stored getenv o3 o4 ->
        getenv "LETSENCRYPT_ENABLED" <> EmptyString ->
        snd (parseBool (getenv "LETSENCRYPT_ENABLED")) = false ->
        LoadEnv getenv o
        = (o4, Some (ErrInvalidEnabled (getenv "LETSENCRYPT_ENABLED"))))
  /\ (forall o1 o2 o3 o4 o5,
        port_stored getenv o o1 ->
        host_stored getenv o1 o2 ->
        email_stored getenv o2 o3 ->
        cache_dir_stored getenv o3 o4 ->
        enabled_stored getenv o4 o5 ->
        LoadEnv getenv o = (o5, None)).
Proof.
  assert (PS : forall o1, port_stored getenv o o1 -> load_port getenv o = (o1, None)).
  { intros o1 [[E ->]|(N & n & A & ->)]; unfold load_port.
    - rewrite E. reflexivity.
    - rewrite (eqb_false_of_neq _ _ N), A. reflexivity. }
  assert (HS : forall o1 o2, host_stored getenv o1 o2 ->
                             load_host getenv o1 = (o2, None)).
  { intros o1 o2 [[E ->]|(N & S & ->)]; unfold load_host.
    - rewrite E. reflexivity.
    - rewrite (eqb_false_of_neq _ _ N), S. reflexivity. }
  assert (ES : forall o2 o3, email_stored getenv o2 o3 ->
                             load_email getenv o2 = (o3, None)).
  { intros o2 o3 [[E ->]|(N & C & ->)]; unfold load_email.
    - rewrite E. reflexivity.
    - rewrite (eqb_false_of_neq _ _ N), C. reflexivity. }
  assert (CS : forall o3 o4, cache_dir_stored getenv o3 o4 ->
                             load_cache_dir getenv o3 = o4).
  { intros o3 o4 [[E ->]|(N & ->)]; unfold load_cache_dir.
    - rewrite E. reflexivity.
    - rewrite (eqb_false_of_neq _ _ N). reflexivity. }
  split; [|split; [|split; [|split]]].
  - intros e N A. unfold LoadEnv, load_port.
    rewrite (eqb_false_of_neq _ _ N), A. reflexivity.
  - intros o1 P N S. unfold LoadEnv. rewrite (PS _ P). unfold load_host.
    rewrite (eqb_false_of_neq _ _ N), S. reflexivity.
  - intros o1 o2 P H N C. unfold LoadEnv. rewrite (PS _ P), (HS _ _ H).
    unfold load_email. rewrite (eqb_false_of_neq _ _ N), C. reflexivity.
  - intros o1 o2 o3 o4 P H E C N B. unfold LoadEnv.
    rewrite (PS _ P), (HS _ _ H), (ES _ _ E), (CS _ _ C). unfold load_enabled.
    rewrite (eqb_false_of_neq _ _ N).
    destruct (parseBool (getenv "LETSENCRYPT_ENABLED")) as [v k].
    cbn in B. rewrite B. reflexivity.
  - intros o1 o2 o3 o4 o5 P H E C B. unfold LoadEnv.
    rewrite (PS _ P), (HS _ _ H), (ES _ _ E), (CS _ _ C). unfold load_enabled.
    destruct B as [[Z ->]|(N & v & B & ->)].
    + rewrite Z. reflexivity.
    + rewrite (eqb_false_of_neq _ _ N), B. reflexivity.
Qed.

Lemma LoadEnv_stops_at_first_error_witness :
  LoadEnv (getenv_of [("PORT", "80a"); ("HOST", "https://example.org")]) dev_options
  = (dev_options, Some (ErrInvalidPort "80a" ErrSyntax))
  /\ LoadEnv (getenv_of [("PORT", "8080"); ("HOST", "https://example.org");
                          ("LETSENCRYPT_EMAIL", "nobody")]) dev_options
     = (set_Port 8080 dev_options, Some (ErrInvalidHost "https://example.org"))
  /\ LoadEnv (getenv_of [("HOST", "example.org"); ("LETSENCRYPT_EMAIL", "nobody");
                          ("LETSENCRYPT_CACHE_DIR", "/var/cache");
                          ("LETSENCRYPT_ENABLED", "maybe")]) dev_options
     = (set_Host "example.org" dev_options, Some (ErrInvalidEmail "nobody"))
  /\ LoadEnv (getenv_of [("LETSENCRYPT_EMAIL", "you@example.org");
                          ("LETSENCRYPT_CACHE_DIR", "/var/cache");
                          ("LETSENCRYPT_ENABLED", "maybe")]) dev_options
     = (set_LetsEncryptCacheDir "/var/cache"
          (set_LetsEncryptEmail "you@example.org" dev_options),
        Some (ErrInvalidEnabled "maybe")).
Proof.
  split; [|split; [|split]].
  - apply (LoadEnv_stops_at_first_error
             (getenv_of [("PORT", "80a"); ("HOST", "https://example.org")]) dev_options);
      [discriminate | reflexivity].
  - apply (LoadEnv_stops_at_first_error
             (getenv_of [("PORT", "8080"); ("HOST", "https://example.org");
                         ("LETSENCRYPT_EMAIL", "nobody")]) dev_options);
      [|discriminate | reflexivity].
    right. split; [discriminate|]. exists 8080. split; reflexivity.
  - apply (LoadEnv_stops_at_first_error
             (getenv_of [("HOST", "example.org"); ("LETSENCRYPT_EMAIL", "nobody");
                         ("LETSENCRYPT_CACHE_DIR", "/var/cache");
                         ("LETSENCRYPT_ENABLED", "maybe")]) dev_options) with
      (o1 := dev_options); [| |discriminate | reflexivity].
    + left. split; reflexivity.
    + right. split; [discriminate|]. split; reflexivity.
  - apply (LoadEnv_stops_at_first_error
             (getenv_of [("LETSENCRYPT_EMAIL", "you@example.org");
                         ("LETSENCRYPT_CACHE_DIR", "/var/cache");
                         ("LETSENCRYPT_ENABLED", "maybe")]) dev_options) with
      (o1 := dev_options) (o2 := dev_options)
      (o3 := set_LetsEncryptEmail "you@example.org" dev_options);
      [| | | |discriminate | reflexivity].
    + left. split; reflexivity.
    + left. split; reflexivity.
    + right. split; [discriminate|]. split; reflexivity.
    + right. split; [discriminate|]. reflexivity.
Defined.

Lemma Contains_nonempty (s sub : string) :
  sub <> EmptyString -> Contains s sub = true -> s <> EmptyString.
Proof.
  intros Hsub H ->. destruct sub; [contradiction|]. discriminate H.
Qed.

(** X28: [LoadEnv] and [Verify] together, for a production environment.
    With PORT unset, HOST a public host without schema, an e-mail address
    with "@", a cache directory and LETSENCRYPT_ENABLED an affirmative
    word, starting from options with no port (or port 80) that are not
    marked local, loading succeeds, validation succeeds, the port is 80 and
    the base URL is "https://<HOST>". *)
Theorem LoadEnv_then_Verify_production (getenv : string -> string) (o : Options) :
  getenv "PORT" = EmptyString ->
  host_has_schema (getenv "HOST") = false ->
  is_local_host (getenv "HOST") = false ->
  Contains (getenv "LETSENCRYPT_EMAIL") "@" = true ->
  getenv "LETSENCRYPT_CACHE_DIR" <> EmptyString ->
  fst (parseBool (getenv "LETSENCRYPT_ENABLED")) = true ->
  Port o = 0 \/ Port o = 80 ->
  IsLocalDevelopmentHost o = false ->
  snd (LoadEnv getenv o) = None
  /\ snd (Verify (fst (LoadEnv getenv o))) = None
  /\ Port (fst (Verify (fst (LoadEnv getenv o)))) = 80
  /\ LetsEncrypt (fst (Verify (fst (LoadEnv getenv o)))) = true
  /\ BaseURL (fst (Verify (fst (LoadEnv getenv o))))
     = Returns ("https://" ++ getenv "HOST").
Proof.
  intros HP HS HL HM HC HE HPort HF.
  destruct (not_local_host _ HL) as [Hne Hnl].
  assert (HH : getenv "HOST" <> EmptyString) by (apply String.eqb_neq; exact Hne).
  assert (HM' : getenv "LETSENCRYPT_EMAIL" <> EmptyString)
    by (apply (Contains_nonempty _ "@"); [discriminate | exact HM]).
  destruct (parseBool_table_core (getenv "LETSENCRYPT_ENABLED")) as (_ & _ & PB & _ & PL).
  specialize (PB HE).
  assert (HE' : getenv "LETSENCRYPT_ENABLED" <> EmptyString).
  { intros E. specialize (PL PB). rewrite E in PL. cbn in PL. lia. }
  assert (HB : parseBool (getenv "LETSENCRYPT_ENABLED") = (true, true)).
  { destruct (parseBool (getenv "LETSENCRYPT_ENABLED")) as [v k].
    cbn in HE, PB. subst. reflexivity. }
  assert (L : LoadEnv getenv o
              = (set_LetsEncrypt true
                   (set_LetsEncryptCacheDir (getenv "LETSENCRYPT_CACHE_DIR")
                      (set_LetsEncryptEmail (getenv "LETSENCRYPT_EMAIL")
                         (set_Host (getenv "HOST") o))), None)).
  { unfold LoadEnv, load_port, load_host, load_email, load_cache_dir, load_enabled.
    rewrite HP, HS, HM, HB. cbn.
    rewrite (eqb_false_of_neq _ _ HH), (eqb_false_of_neq _ _ HM'),
      (eqb_false_of_neq _ _ HC), (eqb_false_of_neq _ _ HE'). reflexivity. }
  rewrite L. cbn [fst snd].
  set (o1 := set_LetsEncrypt true _).
  assert (SL : starts_local o1 = false)
    by (unfold starts_local, o1; cbn; rewrite HL, HF; reflexivity).
  assert (V : snd (Verify o1) = None).
  { apply Verify_succeeds_iff_core. rewrite SL. split; [discriminate|].
    intros _. unfold o1. cbn. repeat split; assumption. }
  destruct (Verify_success_record_core o1 V) as (R & _).
  split; [reflexivity|]. split; [exact V|].
  rewrite (Verify_then_BaseURL_core o1 V), SL, R.
  unfold verified, resolved_port. rewrite SL. unfold o1 at 1 2 3 4 5 6. cbn.
  rewrite Hne, Hnl. cbn.
  repeat split. destruct HPort as [P|P]; rewrite P; reflexivity.
Qed.

Lemma LoadEnv_then_Verify_production_witness :
  BaseURL (fst (Verify (fst (LoadEnv
             (getenv_of [("LETSENCRYPT_ENABLED", "1");
                         ("LETSENCRYPT_EMAIL", "you@example.com");
                         ("LETSENCRYPT_CACHE_DIR", "/var/cache/easyhttpserver");
                         ("HOST", "myhost.example.com")])
             dev_options))))
  = Returns "https://myhost.example.com".
Proof.
  apply (LoadEnv_then_Verify_production
           (getenv_of [("LETSENCRYPT_ENABLED", "1");
                       ("LETSENCRYPT_EMAIL", "you@example.com");
                       ("LETSENCRYPT_CACHE_DIR", "/var/cache/easyhttpserver");
                       ("HOST", "myhost.example.com")])
           dev_options);
    try reflexivity; [discriminate | left; reflexivity].
Defined.

Lemma Itoa_nonempty (n : Z) : Itoa n <> EmptyString.
Proof.
  unfold Itoa. destruct n as [|p|p]; cbn [Z.to_int NilZero.string_of_int];
    [discriminate | | discriminate].
  destruct (to_uint_string p) as (c & rest & E & _). rewrite E. discriminate.
Qed.

Lemma LoadEnv_Port (getenv : string -> string) (o : Options) :
  Port (fst (LoadEnv getenv o)) = Port (fst (load_port getenv o)).
Proof. load_cases getenv; reflexivity. Qed.

(** X21: a port written with [strconv.Itoa] is read back by [LoadEnv]
    unchanged, for every number in the range of [int]; this holds also
    when a later variable makes [LoadEnv] fail, since the port is stored
    first. *)
Theorem LoadEnv_reads_port (getenv : string -> string) (o : Options) (n : Z) :
  min_int <= n <= max_int ->
  getenv "PORT" = Itoa n ->
  Port (fst (LoadEnv getenv o)) = n.
Proof.
  intros Hn HP. rewrite LoadEnv_Port. unfold load_port.
  rewrite HP, (eqb_false_of_neq _ _ (Itoa_nonempty n)), (Atoi_Itoa n Hn).
  reflexivity.
Qed.

Lemma LoadEnv_reads_port_witness :
  Port (fst (LoadEnv (getenv_of [("PORT", "-9223372036854775808"); ("HOST", "a//b")])
                dev_options))
  = -9223372036854775808.
Proof.
  apply (LoadEnv_reads_port
           (getenv_of [("PORT", "-9223372036854775808"); ("HOST", "a//b")])
           dev_options (-9223372036854775808));
    [vm_compute; split; discriminate | reflexivity].
Defined.

(** X22: a PORT that [LoadEnv] accepts is an optional sign followed by at
    least one byte, all of them decimal digits, and the port stored is in
    the range of [int]; anything else in a PORT that is set makes
    [LoadEnv] fail with the invalid-port error and leaves the record as it
    was. *)
Theorem LoadEnv_port_syntax (getenv : string -> string) (o : Options) :
  getenv "PORT" <> EmptyString ->
  (snd (LoadEnv getenv o) = None ->
   min_int <= Port (fst (LoadEnv getenv o)) <= max_int
   /\ exists digits,
       (getenv "PORT" = digits \/ getenv "PORT" = String "+" digits
        \/ getenv "PORT" = String "-" digits)
       /\ digits <> EmptyString
       /\ Forall (fun c => digit_value c <> None) (list_ascii_of_string digits))
  /\ ((forall n, Atoi (getenv "PORT") <> inl n) ->
      exists e, LoadEnv getenv o = (o, Some (ErrInvalidPort (getenv "PORT") e))).
Proof.
  intros HP. split.
  - intros H. rewrite LoadEnv_Port.
    assert (A : exists n, Atoi (getenv "PORT") = inl n).
    { revert H. unfold LoadEnv, load_port. rewrite (eqb_false_of_neq _ _ HP).
      destruct (Atoi (getenv "PORT")) as [n|e];
        [intros _; exists n; reflexivity | discriminate]. }
    destruct A as [n A]. unfold load_port.
    rewrite (eqb_false_of_neq _ _ HP), A. cbn.
    exact (Atoi_accepts _ _ A).
  - intros N. unfold LoadEnv, load_port. rewrite (eqb_false_of_neq _ _ HP).
    destruct (Atoi (getenv "PORT")) as [n|e]; [contradiction (N n); reflexivity|].
    exists e. reflexivity.
Qed.

Lemma LoadEnv_port_syntax_witness :
  min_int <= Port (fst (LoadEnv (getenv_of [("PORT", "+8080")]) dev_options)) <= max_int
  /\ exists e, LoadEnv (getenv_of [("PORT", "80 80")]) dev_options
               = (dev_options, Some (ErrInvalidPort "80 80" e)).
Proof.
  split.
  - apply (LoadEnv_port_syntax (getenv_of [("PORT", "+8080")]) dev_options);
      [discriminate | reflexivity].
  - apply (LoadEnv_port_syntax (getenv_of [("PORT", "80 80")]) dev_options);
      [discriminate | intros n; discriminate].
Defined.
